(** * The vector mechanism of diffprivlib: a shallow embedding

    This development embeds [diffprivlib/mechanisms/vector.py] (class
    [Vector], the objective-perturbation mechanism of Chaudhuri et al.)
    and proves properties of its setters, of [check_inputs], of
    [randomise] and of the closure [output_func] that [randomise] returns.

    Conventions of the embedding.
    - Python numbers (bool, int, float, numpy.float64) are idealised as
      real numbers: rounding, overflow, NaN and the infinities are outside
      the model.  [int(x)] is truncation towards zero.
    - The process state ([world]) is the mechanism object, numpy's global
      generator and the memory that holds the ndarray objects.  An ndarray
      value is a reference into that memory, so that an in-place update is
      seen through every alias.
    - A method is a computation in a state-and-exception monad: it takes
      the state and returns an outcome together with the state at the
      point of return or raise.  A method that ends in [return self]
      returns [tt]; the entity is in the final state.
    - The array captured by the closure is reachable from the closure
      only and is never updated by it; it is kept by value. *)

From Stdlib Require Import Reals Lra Lia ZArith List Bool.

Set Warnings "-register-all".
Import ListNotations.

Open Scope R_scope.

(** ** Python values, exceptions and the method monad *)

Module Py.

(** The address of an ndarray object. *)
Definition loc : Type := nat.

(** The values that reach the mechanism. *)
Inductive pyval : Type :=
| VNone
| VNum (x : R)              (* bool, int, float, numpy.float64 *)
| VStr (s : list nat)       (* str, by code points *)
| VArray (l : loc)          (* a 1-D numpy.ndarray of floats, by reference *)
| VList (l : list pyval)
| VTuple (l : list pyval).

Inductive exn : Type :=
| TypeError
| ValueError
| IndexError
| Unmodelled.   (* the operation leaves the modelled fragment *)

Inductive outcome (A : Type) : Type :=
| Ok (a : A)
| Raise (e : exn).
Arguments Ok {A} a.
Arguments Raise {A} e.

(** [isinstance(v, numbers.Real)] *)
Definition is_Real (v : pyval) : bool :=
  match v with VNum _ => true | _ => false end.

Definition is_tuple (v : pyval) : bool :=
  match v with VTuple _ => true | _ => false end.

Definition is_None (v : pyval) : bool :=
  match v with VNone => true | _ => false end.

(** The number held by a numeric value (only used behind [is_Real]). *)
Definition num (v : pyval) : R :=
  match v with VNum x => x | _ => 0 end.

(** [int(x)]: truncation towards zero. *)
Definition int (x : R) : Z :=
  if Rle_dec 0 x then Int_part x else (- Int_part (- x))%Z.

(** Comparisons of numbers, as booleans. *)
Definition leb (x y : R) : bool := if Rle_dec x y then true else false.
Definition eqb (x y : R) : bool := if Req_dec_T x y then true else false.

(** Computations: state in, outcome and state out. *)
Definition M (S A : Type) : Type := S -> outcome A * S.

Definition ret {S A} (a : A) : M S A := fun s => (Ok a, s).
Definition raise {S A} (e : exn) : M S A := fun s => (Raise e, s).
Definition bind {S A B} (m : M S A) (k : A -> M S B) : M S B :=
  fun s => match m s with
           | (Ok a, s') => k a s'
           | (Raise e, s') => (Raise e, s')
           end.
Definition lift {S A} (o : outcome A) : M S A := fun s => (o, s).

(** The memory of ndarray objects: the array at address [l] is the
    [l]-th entry. *)
Definition heap : Type := list (list R).

Fixpoint update (h : heap) (l : loc) (v : list R) : heap :=
  match h, l with
  | [], _ => []
  | _ :: h', O => v :: h'
  | u :: h', S l' => u :: update h' l' v
  end.

(** Reading through a reference.  A reference to nothing is not a state
    of a Python process. *)
Definition load (l : loc) : M heap (list R) :=
  fun h => match nth_error h l with
           | Some v => (Ok v, h)
           | None => (Raise Unmodelled, h)
           end.

Definition store (l : loc) (v : list R) : M heap unit :=
  fun h => (Ok tt, update h l v).

Definition alloc (v : list R) : M heap loc :=
  fun h => (Ok (length h), h ++ [v]).

(** A function object: called on its positional arguments it may read
    and update memory, and returns a value or raises. *)
Definition pyfun : Type := list pyval -> M heap pyval.

(** What a caller may pass where a function is expected. *)
Inductive pyobj : Type :=
| Fun (f : pyfun)
| Val (v : pyval).

Definition callable (o : pyobj) : bool :=
  match o with Fun _ => true | Val _ => false end.

End Py.
Import Py.

Arguments VArray l%_nat.
Arguments update h l%_nat v.

Declare Scope py_scope.
Delimit Scope py_scope with py.
Notation "x <- m ;; k" := (bind m (fun x => k))
  (at level 61, m at next level, right associativity) : py_scope.
Notation "m ;;; k" := (bind m (fun _ => k))
  (at level 61, right associativity) : py_scope.
Open Scope py_scope.

(** ** The numpy fragment: scalars and 1-D arrays *)

Module Np.

(** numpy.isclose(a, b) with the default tolerances:
    |a - b| <= atol + rtol * |b|. *)
Definition rtol : R := 1e-5.
Definition atol : R := 1e-8.
Definition isclose (a b : R) : bool :=
  leb (Rabs (a - b)) (atol + rtol * Rabs b).

(** The value of an operand or of a result: a scalar or the contents of
    a 1-D array. *)
Inductive nd : Type :=
| Sc (x : R)
| Ar (v : list R).

Definition all_num (l : list pyval) : bool := forallb is_Real l.

(** numpy's reading of an operand (array_like).  A sequence of numbers
    reads as a 1-D array; nested sequences would be 2-D, strings have no
    numeric dtype: neither is modelled. *)
Definition asarray (v : pyval) : M heap nd :=
  match v with
  | VNum x => ret (Sc x)
  | VArray l => u <- load l ;; ret (Ar u)
  | VList l | VTuple l =>
      if all_num l then ret (Ar (map num l)) else raise Unmodelled
  | VNone => raise TypeError
  | VStr _ => raise Unmodelled
  end.

(** A result as a Python value: an array result is a new object. *)
Definition box (n : nd) : M heap pyval :=
  match n with
  | Sc x => ret (VNum x)
  | Ar v => l <- alloc v ;; ret (VArray l)
  end.

Fixpoint zip_with (f : R -> R -> R) (u v : list R) : list R :=
  match u, v with
  | x :: u', y :: v' => f x y :: zip_with f u' v'
  | _, _ => []
  end.

Fixpoint sum (v : list R) : R :=
  match v with [] => 0 | x :: v' => x + sum v' end.

(** The inner product of two vectors of equal length. *)
Definition inner (u v : list R) : R := sum (zip_with Rmult u v).

(** Broadcasting of a binary elementwise operation over scalars and 1-D
    arrays: equal lengths, or one side of length 1. *)
Definition broadcast (f : R -> R -> R) (a b : nd) : outcome nd :=
  match a, b with
  | Sc x, Sc y => Ok (Sc (f x y))
  | Sc x, Ar v => Ok (Ar (map (f x) v))
  | Ar u, Sc y => Ok (Ar (map (fun x => f x y) u))
  | Ar u, Ar v =>
      if Nat.eqb (length u) (length v) then Ok (Ar (zip_with f u v))
      else match u, v with
           | [x], _ => Ok (Ar (map (f x) v))
           | _, [y] => Ok (Ar (map (fun x => f x y) u))
           | _, _ => Raise ValueError
           end
  end.

Definition add := broadcast Rplus.
Definition mul := broadcast Rmult.

(** numpy.dot on scalars and 1-D arrays: a product when either side is a
    scalar, the inner product of two arrays of the same length. *)
Definition dot (a b : nd) : outcome nd :=
  match a, b with
  | Ar u, Ar v =>
      if Nat.eqb (length u) (length v) then Ok (Sc (inner u v))
      else Raise ValueError
  | _, _ => mul a b
  end.

(** numpy.linalg.norm(v, 2) of a 1-D array. *)
Definition norm (v : list R) : R := sqrt (sum (map (fun x => x * x) v)).

(** [target += x] where [x] is a numpy scalar or array.  A number is
    rebound to the sum.  An ndarray is updated in place: the object keeps
    its address and its shape, and every alias sees the sum.  A sequence
    of numbers has no in-place addition with a numpy operand and is
    rebound to a new array. *)
Definition iadd (target : pyval) (x : nd) : M heap pyval :=
  match target with
  | VArray l =>
      u <- load l ;;
      r <- lift (add (Ar u) x) ;;
      match r with
      | Ar r' => if Nat.eqb (length r') (length u)
                 then store l r' ;;; ret (VArray l)
                 else raise ValueError
      | Sc _ => raise ValueError
      end
  | _ =>
      t <- asarray target ;;
      r <- lift (add t x) ;;
      box r
  end.

(** [k * w] for a number [k] and a Python value [w].  On a list or tuple
    the result depends on the Python type of [k] (repetition for an int,
    an array product for a numpy.float64), which the real-number
    idealisation does not keep. *)
Definition scale (k : R) (w : pyval) : M heap nd :=
  match w with
  | VNum x => ret (Sc (k * x))
  | VArray l => v <- load l ;; ret (Ar (map (Rmult k) v))
  | VNone => raise TypeError
  | VStr _ | VList _ | VTuple _ => raise Unmodelled
  end.

(** numpy's global generator.  [normal_stream] is the sequence of
    standard-normal draws it will deliver, [gamma_sample shape scale i]
    the Gamma draw it delivers at position [i]; [cursor] counts the draws
    made so far. *)
Record generator : Type := {
  normal_stream : nat -> R;
  gamma_sample : R -> R -> nat -> R;
  cursor : nat
}.

Definition advance (n : nat) (g : generator) : generator :=
  {| normal_stream := normal_stream g;
     gamma_sample := gamma_sample g;
     cursor := (cursor g + n)%nat |}.

(** numpy.random.normal(0, 1, d) *)
Definition random_normal (d : nat) : M generator (list R) :=
  fun g => (Ok (map (normal_stream g) (seq (cursor g) d)), advance d g).

(** numpy.random.gamma(shape, scale, 1): an array of one draw. *)
Definition random_gamma (shape scale : R) : M generator (list R) :=
  fun g => (Ok [gamma_sample g shape scale (cursor g)], advance 1 g).

End Np.

Arguments Np.broadcast : simpl never.
Arguments Np.add : simpl never.
Arguments Np.mul : simpl never.

(** ** The mechanism *)

(** The attributes of a [Vector] object.  [None] is Python's [None]; a
    stored number is kept by its value. *)
Record Vector : Type := {
  _epsilon : option R;
  _delta : option R;
  _function_sensitivity : option R;
  _data_sensitivity : option R;
  _d : option Z;
  _alpha : R
}.

(** The process state: the mechanism object, numpy's generator and the
    memory of ndarray objects. *)
Record world : Type := {
  self : Vector;
  np_random : Np.generator;
  memory : heap
}.

Definition get_self : M world Vector := fun s => (Ok (self s), s).

Definition set_self (v : Vector) : M world unit :=
  fun s => (Ok tt, {| self := v; np_random := np_random s; memory := memory s |}).

Definition on_random {A} (m : M Np.generator A) : M world A :=
  fun s => let (o, g) := m (np_random s) in
           (o, {| self := self s; np_random := g; memory := memory s |}).

Definition on_memory {A} (m : M heap A) : M world A :=
  fun s => let (o, h) := m (memory s) in
           (o, {| self := self s; np_random := np_random s; memory := h |}).

Module DPMechanism.

(** Modelled from the spec: the base class [DPMechanism] is not part of
    the sources.  Its constructor leaves epsilon and delta unset. *)
Definition init : Vector :=
  {| _epsilon := None; _delta := None;
     _function_sensitivity := None; _data_sensitivity := None;
     _d := None; _alpha := 0 |}.

(** Modelled from the spec: [DPMechanism.set_epsilon_delta], the shared
    base validation.  It requires a numeric [epsilon > 0] (TypeKind for a
    non-numeric epsilon, ValueKind otherwise) and stores both values. *)
Definition set_epsilon_delta (epsilon delta : pyval) : M world unit :=
  if negb (is_Real epsilon) then raise TypeError
  else if leb (num epsilon) 0 then raise ValueError
  else
    s <- get_self ;;
    set_self {| _epsilon := Some (num epsilon);
                _delta := Some (num delta);
                _function_sensitivity := _function_sensitivity s;
                _data_sensitivity := _data_sensitivity s;
                _d := _d s;
                _alpha := _alpha s |}.

(** Modelled from the spec: [DPMechanism.check_inputs], the base check
    that epsilon is set and positive. *)
Definition check_inputs (value : pyobj) : M world bool :=
  s <- get_self ;;
  match _epsilon s with
  | None => raise ValueError
  | Some e => if leb e 0 then raise ValueError else ret true
  end.

End DPMechanism.

(** [Vector.__init__] *)
Definition init : Vector :=
  let s := DPMechanism.init in
  {| _epsilon := _epsilon s;
     _delta := _delta s;
     _function_sensitivity := None;
     _data_sensitivity := Some 1;
     _d := None;
     _alpha := 0.01 |}.

(** The truth value of [delta == 0].  Numbers compare by value; None,
    strings, lists and tuples are never equal to 0; an array compares
    elementwise and has a truth value only when it has one element. *)
Definition eq_zero (delta : pyval) : M heap bool :=
  match delta with
  | VNum x => ret (eqb x 0)
  | VArray l =>
      v <- load l ;;
      match v with
      | [x] => ret (eqb x 0)
      | _ => raise ValueError
      end
  | VNone | VStr _ | VList _ | VTuple _ => ret false
  end.

(** [Vector.set_epsilon_delta] *)
Definition set_epsilon_delta (epsilon delta : pyval) : M world unit :=
  z <- on_memory (eq_zero delta) ;;
  if negb z then raise ValueError
  else DPMechanism.set_epsilon_delta epsilon delta.

(** [Vector.set_sensitivity] *)
Definition set_sensitivity (function_sensitivity data_sensitivity : pyval)
  : M world unit :=
  if negb (is_Real function_sensitivity) || negb (is_Real data_sensitivity)
  then raise TypeError
  else if leb (num function_sensitivity) 0 || leb (num data_sensitivity) 0
  then raise ValueError
  else
    s <- get_self ;;
    set_self {| _epsilon := _epsilon s;
                _delta := _delta s;
                _function_sensitivity := Some (num function_sensitivity);
                _data_sensitivity := _data_sensitivity s;
                _d := _d s;
                _alpha := _alpha s |} ;;;
    s <- get_self ;;
    set_self {| _epsilon := _epsilon s;
                _delta := _delta s;
                _function_sensitivity := _function_sensitivity s;
                _data_sensitivity := Some (num data_sensitivity);
                _d := _d s;
                _alpha := _alpha s |}.

(** The default [data_sensitivity=1]. *)
Definition set_sensitivity_default (function_sensitivity : pyval)
  : M world unit :=
  set_sensitivity function_sensitivity (VNum 1).

(** [Vector.set_alpha] *)
Definition set_alpha (alpha : pyval) : M world unit :=
  if negb (is_Real alpha) then raise TypeError
  else if leb (num alpha) 0 then raise ValueError
  else
    s <- get_self ;;
    set_self {| _epsilon := _epsilon s;
                _delta := _delta s;
                _function_sensitivity := _function_sensitivity s;
                _data_sensitivity := _data_sensitivity s;
                _d := _d s;
                _alpha := num alpha |}.

(** [Vector.check_inputs] *)
Definition check_inputs (value : pyobj) : M world bool :=
  DPMechanism.check_inputs value ;;;
  if negb (callable value) then raise TypeError
  else
    s <- get_self ;;
    match _data_sensitivity s, _function_sensitivity s with
    | Some _, Some _ =>
        match _d s with
        | None => raise ValueError
        | Some _ => ret true
        end
    | _, _ => raise ValueError
    end.

(** [Vector.set_dimension] *)
Definition set_dimension (d : pyval) : M world unit :=
  if negb (is_Real d) || negb (Np.isclose (num d) (IZR (int (num d))))
  then raise TypeError
  else if negb (leb 1 (num d)) then raise ValueError
  else
    s <- get_self ;;
    set_self {| _epsilon := _epsilon s;
                _delta := _delta s;
                _function_sensitivity := _function_sensitivity s;
                _data_sensitivity := _data_sensitivity s;
                _d := Some (int (num d));
                _alpha := _alpha s |}.

(** What the closure [output_func] captures from the frame of
    [randomise]. *)
Record closure : Type := {
  value : pyobj;
  normed_noisy_vector : Np.nd;
  delta : R
}.

(** Lines 185-192 of [randomise]: the adjusted budget
    [(epsilon_p, delta, scale)]. *)
Definition budget (epsilon c g a : R) : R * R * R :=
  let epsilon_p := epsilon - 2 * ln (1 + c * g / (0.5 * a)) in
  let delta := 0 in
  let '(delta, epsilon_p) :=
    if leb epsilon_p 0
    then (c * g / (exp (epsilon / 4) - 1) - 0.5 * a, epsilon / 2)
    else (delta, epsilon_p) in
  let scale := epsilon_p / 2 / g in
  (epsilon_p, delta, scale).

(** Reading an attribute for arithmetic: [None] is no operand. *)
Definition attr {S A} (o : option A) : M S A :=
  match o with Some x => ret x | None => raise TypeError end.

(** [Vector.randomise] *)
Definition randomise (value : pyobj) : M world closure :=
  check_inputs value ;;;
  s <- get_self ;;
  c <- attr (_function_sensitivity s) ;;
  g <- attr (_data_sensitivity s) ;;
  let a := _alpha s in
  epsilon <- attr (_epsilon s) ;;
  let '(epsilon_p, delta, scale) := budget epsilon c g a in
  d <- attr (_d s) ;;
  normed_noisy_vector <- on_random (Np.random_normal (Z.to_nat d)) ;;
  let norm := Np.norm normed_noisy_vector in
  noisy_norm <- on_random (Np.random_gamma (IZR d) (1 / scale)) ;;
  direction <- lift (Np.broadcast Rdiv (Np.Ar normed_noisy_vector) (Np.Sc norm)) ;;
  normed_noisy_vector <- lift (Np.mul direction (Np.Ar noisy_norm)) ;;
  ret {| value := value;
         normed_noisy_vector := normed_noisy_vector;
         delta := delta |}.

(** The call of [value] on the positional arguments. *)
Definition call_value (value : pyobj) (args : list pyval) : M heap pyval :=
  match value with
  | Fun f => f args
  | Val _ => raise TypeError
  end.

(** Lines 205-208 of [output_func]: a tuple is unpacked into
    [func, grad]; anything else is [func] with [grad = None]. *)
Definition split_result (func : pyval) : outcome (pyval * pyval) :=
  if is_tuple func then
    match func with
    | VTuple [func; grad] => Ok (func, grad)
    | _ => Raise ValueError
    end
  else Ok (func, VNone).

(** [output_func], the function returned by [randomise].  Every use of
    [w] reads the array as it is in memory at that point. *)
Definition output_func (k : closure) (args : list pyval) : M heap pyval :=
  w <- lift (match args with w :: _ => Ok w | [] => Raise IndexError end) ;;
  func <- call_value (value k) args ;;
  fg <- lift (split_result func) ;;
  let '(func, grad) := fg in
  wv <- Np.asarray w ;;
  p <- lift (Np.dot (normed_noisy_vector k) wv) ;;
  func <- Np.iadd func p ;;
  wv <- Np.asarray w ;;
  q <- lift (Np.dot wv wv) ;;
  q <- lift (Np.mul (Np.Sc (0.5 * delta k)) q) ;;
  func <- Np.iadd func q ;;
  if negb (is_None grad) then
    dw <- Np.scale (delta k) w ;;
    n <- lift (Np.add (normed_noisy_vector k) dw) ;;
    grad <- Np.iadd grad n ;;
    ret (VTuple [func; grad])
  else ret func.

(** A call of the returned function, as a step of the process. *)
Definition call (k : closure) (args : list pyval) : M world pyval :=
  on_memory (output_func k args).

(** ** Sample states *)

(** A generator whose normal draws alternate 0.6, -0.8 and whose Gamma
    draws are 0.5. *)
Definition sample_generator : Np.generator :=
  {| Np.normal_stream := fun i => if Nat.even i then 0.6 else -0.8;
     Np.gamma_sample := fun _ _ _ => 0.5;
     Np.cursor := 0 |}.

(** A freshly constructed mechanism. *)
Definition fresh : world :=
  {| self := init; np_random := sample_generator; memory := [] |}.

(** The mechanism after epsilon = 1, function sensitivity 1 and
    dimension 2 have been set, with the array [1, 1] at address 0 and the
    array [1, 2] at address 1. *)
Definition ready : world :=
  {| self := {| _epsilon := Some 1;
                _delta := Some 0;
                _function_sensitivity := Some 1;
                _data_sensitivity := Some 1;
                _d := Some 2%Z;
                _alpha := 0.01 |};
     np_random := sample_generator;
     memory := [[1; 1]; [1; 2]] |}.

(** [lambda w: (0.0, numpy.zeros(2))] *)
Definition zero_objective : pyfun :=
  fun _ => l <- alloc [0; 0] ;; ret (VTuple [VNum 0; VArray l]).

(** [lambda w: (c @ w, c)] for the array [c] at a given address: a linear
    objective, whose gradient is [c] itself. *)
Definition linear_objective (c : loc) : pyfun :=
  fun args =>
    w <- lift (match args with w :: _ => Ok w | [] => Raise TypeError end) ;;
    cv <- Np.asarray (VArray c) ;;
    wv <- Np.asarray w ;;
    p <- lift (Np.dot cv wv) ;;
    f <- Np.box p ;;
    ret (VTuple [f; VArray c]).

Arguments linear_objective c%_nat args.

(** [lambda w: [w @ w, 1.0]]: a function that returns a two-element
    list. *)
Definition list_objective : pyfun :=
  fun args =>
    w <- lift (match args with w :: _ => Ok w | [] => Raise TypeError end) ;;
    wv <- Np.asarray w ;;
    p <- lift (Np.dot wv wv) ;;
    f <- Np.box p ;;
    ret (VList [f; VNum 1]).

(** ** Readings of the specification *)

(** "Integer-valued within floating-point tolerance", as the
    specification words it: some integer is close to [x]. *)
Definition near_integer (x : R) : Prop :=
  exists n : Z, Np.isclose x (IZR n) = true.

(** [lambda w: (0.0, None)]: a pair without a gradient. *)
Definition none_gradient_objective : pyfun :=
  fun _ => ret (VTuple [VNum 0; VNone]).

(** [lambda w: w]: the function returns its argument. *)
Definition identity_objective : pyfun :=
  fun args =>
    lift (match args with w :: _ => Ok w | [] => Raise TypeError end).

(** A closure with the noise vector [0.3, -0.4] and delta = 0. *)
Definition sample_closure (f : pyfun) : closure :=
  {| value := Fun f; normed_noisy_vector := Np.Ar [0.3; -0.4]; delta := 0 |}.

(** ** The configuration the setters maintain *)


(** The state with another mechanism object. *)
Definition with_self (s : world) (v : Vector) : world :=
  {| self := v; np_random := np_random s; memory := memory s |}.

(** * Properties *)

(** ** Comparisons *)

Lemma leb_true (x y : R) : leb x y = true <-> x <= y.
Proof. unfold leb; destruct (Rle_dec x y); split; intros; auto; discriminate. Qed.

Lemma leb_false (x y : R) : leb x y = false <-> y < x.
Proof.
  unfold leb; destruct (Rle_dec x y); split; intros; auto; try discriminate; lra.
Qed.

Lemma eqb_true (x y : R) : eqb x y = true <-> x = y.
Proof. unfold eqb; destruct (Req_dec_T x y); split; intros; auto; discriminate. Qed.

Lemma leb_pos (x : R) : 0 < x -> leb x 0 = false.
Proof. intros; apply leb_false; assumption. Qed.

Lemma leb_nonpos (x : R) : x <= 0 -> leb x 0 = true.
Proof. intros; apply leb_true; assumption. Qed.

Lemma world_eta (s : world) :
  {| self := self s; np_random := np_random s; memory := memory s |} = s.
Proof. destruct s; reflexivity. Qed.

(** Unfolding of the method monad. *)
Ltac run :=
  unfold bind, ret, raise, lift, attr, get_self, set_self, on_random, on_memory;
  simpl.

(** ** The setters validate before they assign *)

Lemma set_sensitivity_failure (fs ds : pyval) (s : world) (e : exn) :
  fst (set_sensitivity fs ds s) = Raise e ->
  snd (set_sensitivity fs ds s) = s /\ (e = TypeError \/ e = ValueError).
Proof.
  unfold set_sensitivity.
  destruct (negb (is_Real fs) || negb (is_Real ds)).
  - run; intros [= <-]; auto.
  - destruct (leb (num fs) 0 || leb (num ds) 0).
    + run; intros [= <-]; auto.
    + run; discriminate.
Qed.

Lemma set_alpha_failure (alpha : pyval) (s : world) (e : exn) :
  fst (set_alpha alpha s) = Raise e ->
  snd (set_alpha alpha s) = s /\ (e = TypeError \/ e = ValueError).
Proof.
  unfold set_alpha.
  destruct (negb (is_Real alpha)).
  - run; intros [= <-]; auto.
  - destruct (leb (num alpha) 0).
    + run; intros [= <-]; auto.
    + run; discriminate.
Qed.

Lemma set_dimension_failure (d : pyval) (s : world) (e : exn) :
  fst (set_dimension d s) = Raise e ->
  snd (set_dimension d s) = s /\ (e = TypeError \/ e = ValueError).
Proof.
  unfold set_dimension.
  destruct (negb (is_Real d) || negb (Np.isclose (num d) (IZR (int (num d))))).
  - run; intros [= <-]; auto.
  - destruct (negb (leb 1 (num d))).
    + run; intros [= <-]; auto.
    + run; discriminate.
Qed.

Lemma set_sensitivity_bad_data (c : R) (ds : pyval) (s : world) :
  0 < c ->
  is_Real ds = false \/ num ds <= 0 ->
  exists e, set_sensitivity (VNum c) ds s = (Raise e, s).
Proof.
  intros Hc Hds. unfold set_sensitivity. simpl.
  destruct (is_Real ds) eqn:Er; simpl.
  - destruct Hds as [Hds | Hds]; [discriminate|].
    rewrite (leb_nonpos _ Hds), orb_true_r. eexists; reflexivity.
  - eexists; reflexivity.
Qed.

(** C10: set_sensitivity, set_alpha and set_dimension validate types and
    ranges before they assign any attribute: when one of them raises (a
    TypeError or a ValueError) the object, and the rest of the process
    state, is left exactly as it was; and set_sensitivity called with a
    valid function sensitivity and an invalid data sensitivity raises and
    stores neither of the two. *)
Theorem setters_fail_without_assignment :
  (forall fs ds s e, fst (set_sensitivity fs ds s) = Raise e ->
     snd (set_sensitivity fs ds s) = s /\ (e = TypeError \/ e = ValueError)) /\
  (forall alpha s e, fst (set_alpha alpha s) = Raise e ->
     snd (set_alpha alpha s) = s /\ (e = TypeError \/ e = ValueError)) /\
  (forall d s e, fst (set_dimension d s) = Raise e ->
     snd (set_dimension d s) = s /\ (e = TypeError \/ e = ValueError)) /\
  (forall c ds s, 0 < c -> is_Real ds = false \/ num ds <= 0 ->
     exists e, set_sensitivity (VNum c) ds s = (Raise e, s)).
Proof.
  repeat split.
  - eapply set_sensitivity_failure; eassumption.
  - eapply set_sensitivity_failure; eassumption.
  - eapply set_alpha_failure; eassumption.
  - eapply set_alpha_failure; eassumption.
  - eapply set_dimension_failure; eassumption.
  - eapply set_dimension_failure; eassumption.
  - intros; apply set_sensitivity_bad_data; assumption.
Qed.

(** ** set_epsilon_delta *)

Lemma eq_zero_pure (delta : pyval) (h : heap) : snd (eq_zero delta h) = h.
Proof.
  destruct delta as [| x | n | l | l | l]; try reflexivity.
  unfold eq_zero, load. run.
  destruct (nth_error h l) as [[|x [|y v]]|]; reflexivity.
Qed.

Lemma set_epsilon_delta_nonzero (epsilon delta : pyval) (s : world) :
  fst (eq_zero delta (memory s)) = Ok false \/
  fst (eq_zero delta (memory s)) = Raise ValueError ->
  set_epsilon_delta epsilon delta s = (Raise ValueError, s).
Proof.
  intros H. unfold set_epsilon_delta. unfold bind, on_memory.
  pose proof (eq_zero_pure delta (memory s)) as P.
  destruct (eq_zero delta (memory s)) as [o h]. simpl in H, P. subst h.
  rewrite world_eta.
  destruct H as [-> | ->]; reflexivity.
Qed.

Lemma set_epsilon_delta_zero (e : R) (s : world) :
  set_epsilon_delta (VNum e) (VNum 0) s =
  if leb e 0 then (Raise ValueError, s)
  else (Ok tt,
        {| self := {| _epsilon := Some e;
                      _delta := Some 0;
                      _function_sensitivity := _function_sensitivity (self s);
                      _data_sensitivity := _data_sensitivity (self s);
                      _d := _d (self s);
                      _alpha := _alpha (self s) |};
           np_random := np_random s;
           memory := memory s |}).
Proof.
  unfold set_epsilon_delta, DPMechanism.set_epsilon_delta. run.
  replace (eqb 0 0) with true by (symmetry; apply eqb_true; reflexivity).
  simpl. rewrite world_eta. destruct (leb e 0); reflexivity.
Qed.

(** C5: set_epsilon_delta(epsilon, delta) raises ValueError, whatever
    epsilon is, whenever [delta == 0] is false or has no truth value (the
    delta check comes first and leaves the state untouched); with
    delta = 0 and a numeric epsilon it raises ValueError if and only if
    epsilon <= 0, and otherwise succeeds and stores epsilon. *)
Theorem set_epsilon_delta_spec :
  (forall epsilon delta s,
     fst (eq_zero delta (memory s)) = Ok false \/
     fst (eq_zero delta (memory s)) = Raise ValueError ->
     set_epsilon_delta epsilon delta s = (Raise ValueError, s)) /\
  (forall e s,
     fst (set_epsilon_delta (VNum e) (VNum 0) s) = Raise ValueError <-> e <= 0) /\
  (forall e s, 0 < e ->
     fst (set_epsilon_delta (VNum e) (VNum 0) s) = Ok tt /\
     _epsilon (self (snd (set_epsilon_delta (VNum e) (VNum 0) s))) = Some e).
Proof.
  split; [exact set_epsilon_delta_nonzero|]. split.
  - intros e s. rewrite set_epsilon_delta_zero.
    destruct (leb e 0) eqn:E; simpl.
    + apply leb_true in E. split; auto.
    + apply leb_false in E. split; [discriminate | lra].
  - intros e s He. rewrite set_epsilon_delta_zero.
    rewrite (leb_pos _ He). simpl. auto.
Qed.

(** ** set_dimension *)

Lemma set_dimension_cases (d : pyval) (s : world) :
  set_dimension d s =
  if negb (is_Real d) || negb (Np.isclose (num d) (IZR (int (num d))))
  then (Raise TypeError, s)
  else if negb (leb 1 (num d)) then (Raise ValueError, s)
  else (Ok tt,
        {| self := {| _epsilon := _epsilon (self s);
                      _delta := _delta (self s);
                      _function_sensitivity := _function_sensitivity (self s);
                      _data_sensitivity := _data_sensitivity (self s);
                      _d := Some (int (num d));
                      _alpha := _alpha (self s) |};
           np_random := np_random s;
           memory := memory s |}).
Proof.
  unfold set_dimension.
  destruct (negb (is_Real d) || negb (Np.isclose (num d) (IZR (int (num d)))));
    [reflexivity|].
  destruct (negb (leb 1 (num d))); reflexivity.
Qed.

(** C4 (amended): set_dimension(d) succeeds, storing the truncation
    int(d) and nothing else, if and only if d is a number that numpy's
    isclose finds close to its own truncation int(d) and d >= 1; it raises
    TypeError exactly when d is not a number or is not close to int(d),
    and ValueError exactly when d is a number close to int(d) with
    d < 1. *)
Theorem set_dimension_spec (d : pyval) (s : world) :
  let close := is_Real d && Np.isclose (num d) (IZR (int (num d))) in
  (fst (set_dimension d s) = Ok tt <-> close = true /\ 1 <= num d) /\
  (fst (set_dimension d s) = Ok tt ->
     snd (set_dimension d s) =
       {| self := {| _epsilon := _epsilon (self s);
                     _delta := _delta (self s);
                     _function_sensitivity := _function_sensitivity (self s);
                     _data_sensitivity := _data_sensitivity (self s);
                     _d := Some (int (num d));
                     _alpha := _alpha (self s) |};
          np_random := np_random s;
          memory := memory s |}) /\
  (fst (set_dimension d s) = Raise TypeError <-> close = false) /\
  (fst (set_dimension d s) = Raise ValueError <-> close = true /\ num d < 1).
Proof.
  intros close; subst close. rewrite set_dimension_cases.
  destruct (is_Real d); simpl;
    [destruct (Np.isclose (num d) (IZR (int (num d)))); simpl|].
  - destruct (leb 1 (num d)) eqn:E; simpl.
    + apply leb_true in E.
      repeat split; intros; auto; try discriminate.
      destruct H; lra.
    + apply leb_false in E.
      repeat split; intros; auto; try discriminate.
      destruct H; lra.
  - repeat split; intros; auto; try discriminate; destruct H; discriminate.
  - repeat split; intros; auto; try discriminate; destruct H; discriminate.
Qed.

Lemma int_just_below_two : int 1.999999999 = 1%Z.
Proof.
  unfold int. destruct (Rle_dec 0 1.999999999); [|exfalso; lra].
  symmetry; apply Int_part_spec; simpl; lra.
Qed.

(** C4, as stated, fails at d = 1.999999999: it is within tolerance of the
    integer 2 and is >= 1, yet set_dimension compares it with its
    truncation 1 and raises TypeError. *)
Lemma set_dimension_rejects_just_below_integer :
  (near_integer 1.999999999 /\ 1 <= 1.999999999) /\
  set_dimension (VNum 1.999999999) fresh = (Raise TypeError, fresh) /\
  ~ (fst (set_dimension (VNum 1.999999999) fresh) = Ok tt <->
     near_integer 1.999999999 /\ 1 <= 1.999999999).
Proof.
  set (s := fresh).
  assert (N : near_integer 1.999999999 /\ 1 <= 1.999999999).
  { split; [|lra].
    exists 2%Z. unfold Np.isclose, Np.atol, Np.rtol. apply leb_true.
    rewrite (Rabs_left (1.999999999 - 2)) by lra.
    rewrite (Rabs_right 2) by lra. lra. }
  assert (T : set_dimension (VNum 1.999999999) s = (Raise TypeError, s)).
  { rewrite set_dimension_cases. simpl. rewrite int_just_below_two.
    replace (Np.isclose 1.999999999 1) with false; [reflexivity|].
    symmetry. unfold Np.isclose, Np.atol, Np.rtol. apply leb_false.
    rewrite (Rabs_right (1.999999999 - 1)) by lra.
    rewrite (Rabs_right 1) by lra. lra. }
  split; [exact N|]. split; [exact T|].
  rewrite T. simpl. intros [_ H]. specialize (H N). discriminate.
Qed.

(** ** check_inputs *)

Lemma check_inputs_cases (value : pyobj) (s : world) :
  check_inputs value s =
  match _epsilon (self s) with
  | None => (Raise ValueError, s)
  | Some e =>
      if leb e 0 then (Raise ValueError, s)
      else if negb (callable value) then (Raise TypeError, s)
      else match _data_sensitivity (self s), _function_sensitivity (self s),
                 _d (self s) with
           | Some _, Some _, Some _ => (Ok true, s)
           | _, _, _ => (Raise ValueError, s)
           end
  end.
Proof.
  unfold check_inputs, DPMechanism.check_inputs. run.
  destruct (_epsilon (self s)) as [e|]; [|reflexivity].
  destruct (leb e 0); [reflexivity|]. simpl.
  destruct (negb (callable value)); [reflexivity|].
  destruct (_data_sensitivity (self s)), (_function_sensitivity (self s)),
    (_d (self s)); reflexivity.
Qed.

Lemma check_inputs_pure (value : pyobj) (s : world) :
  snd (check_inputs value s) = s.
Proof.
  rewrite check_inputs_cases.
  destruct (_epsilon (self s)) as [e|]; [|reflexivity].
  destruct (leb e 0); [reflexivity|].
  destruct (negb (callable value)); [reflexivity|].
  destruct (_data_sensitivity (self s)), (_function_sensitivity (self s)),
    (_d (self s)); reflexivity.
Qed.

(** A successful check establishes everything [randomise] reads. *)
Lemma check_inputs_ok (value : pyobj) (s : world) (b : bool) :
  fst (check_inputs value s) = Ok b ->
  callable value = true /\
  exists e c g d,
    _epsilon (self s) = Some e /\ 0 < e /\
    _function_sensitivity (self s) = Some c /\
    _data_sensitivity (self s) = Some g /\
    _d (self s) = Some d.
Proof.
  rewrite check_inputs_cases.
  destruct (_epsilon (self s)) as [e|]; [|discriminate].
  destruct (leb e 0) eqn:E; [discriminate|]. apply leb_false in E.
  destruct (callable value); [|discriminate]. simpl.
  destruct (_data_sensitivity (self s)) as [g|],
    (_function_sensitivity (self s)) as [c|],
    (_d (self s)) as [d|]; try discriminate.
  intros _. split; [reflexivity|]. exists e, c, g, d. auto.
Qed.

(** ** randomise *)

Lemma mul_singleton (u : list R) (y : R) :
  Np.mul (Np.Ar u) (Np.Ar [y]) = Ok (Np.Ar (map (fun x => x * y) u)).
Proof.
  unfold Np.mul, Np.broadcast.
  destruct u as [|x [|x' u]]; reflexivity.
Qed.

(** The closure and the state [randomise] ends in, on a mechanism that
    passes the check. *)
Lemma randomise_ready (f : pyfun) (s : world) (e c g : R) (d : Z) :
  _epsilon (self s) = Some e -> 0 < e ->
  _function_sensitivity (self s) = Some c ->
  _data_sensitivity (self s) = Some g ->
  _d (self s) = Some d ->
  randomise (Fun f) s =
  let G := np_random s in
  let n := Z.to_nat d in
  let v := map (Np.normal_stream G) (seq (Np.cursor G) n) in
  let y := Np.gamma_sample G (IZR d)
             (1 / snd (budget e c g (_alpha (self s)))) (Np.cursor G + n) in
  (Ok {| value := Fun f;
         normed_noisy_vector :=
           Np.Ar (map (fun x => x * y) (map (fun x => x / Np.norm v) v));
         delta := snd (fst (budget e c g (_alpha (self s)))) |},
   {| self := self s;
      np_random := Np.advance 1 (Np.advance n G);
      memory := memory s |}).
Proof.
  intros He Hpos Hc Hg Hd.
  unfold randomise. unfold bind at 1.
  rewrite check_inputs_cases, He, (leb_pos _ Hpos), Hc, Hg, Hd. simpl.
  run. rewrite Hc, Hg, He. simpl.
  destruct (budget e c g (_alpha (self s))) as [[ep dl] sc]. simpl.
  rewrite Hd. simpl. rewrite mul_singleton. reflexivity.
Qed.

Lemma randomise_check_fails (value : pyobj) (s : world) (e : exn) :
  fst (check_inputs value s) = Raise e ->
  randomise value s = (Raise e, s).
Proof.
  intros H. unfold randomise. unfold bind at 1.
  pose proof (check_inputs_pure value s) as P.
  destruct (check_inputs value s) as [o v]. simpl in H, P. subst.
  reflexivity.
Qed.

Lemma randomise_check_passes (value : pyobj) (s : world) (b : bool) :
  fst (check_inputs value s) = Ok b ->
  exists k g,
    randomise value s =
    (Ok k, {| self := self s; np_random := g; memory := memory s |}).
Proof.
  intros H. apply check_inputs_ok in H.
  destruct H as [Hc (e & c & g & d & He & Hpos & Hfs & Hds & Hd)].
  destruct value as [f|v]; [|discriminate].
  rewrite (randomise_ready f s e c g d He Hpos Hfs Hds Hd). eauto.
Qed.

(** C6 (amended): randomise(value) on a callable value raises ValueError
    whenever a sensitivity or the dimension is unset, whether or not
    epsilon is set, and leaves the process state untouched;
    check_inputs(value) raises TypeError when value is not callable and
    epsilon is set and positive; it returns True when value is callable
    and epsilon (positive), both sensitivities and the dimension are set;
    and it never changes the state. *)
Theorem check_inputs_spec :
  (forall f s,
     _function_sensitivity (self s) = None \/
     _data_sensitivity (self s) = None \/ _d (self s) = None ->
     randomise (Fun f) s = (Raise ValueError, s)) /\
  (forall v s e, _epsilon (self s) = Some e -> 0 < e ->
     check_inputs (Val v) s = (Raise TypeError, s)) /\
  (forall f s e c g d,
     _epsilon (self s) = Some e -> 0 < e ->
     _function_sensitivity (self s) = Some c ->
     _data_sensitivity (self s) = Some g ->
     _d (self s) = Some d ->
     check_inputs (Fun f) s = (Ok true, s)) /\
  (forall value s, snd (check_inputs value s) = s).
Proof.
  repeat split.
  - intros f s H. apply randomise_check_fails.
    rewrite check_inputs_cases.
    destruct (_epsilon (self s)) as [e|]; [|reflexivity].
    destruct (leb e 0); [reflexivity|]. simpl.
    destruct H as [H | [H | H]]; rewrite H;
      destruct (_data_sensitivity (self s)), (_function_sensitivity (self s));
      reflexivity.
  - intros v s e He Hpos. rewrite check_inputs_cases, He, (leb_pos _ Hpos).
    reflexivity.
  - intros f s e c g d He Hpos Hc Hg Hd.
    rewrite check_inputs_cases, He, (leb_pos _ Hpos), Hc, Hg, Hd. reflexivity.
  - apply check_inputs_pure.
Qed.

(** C6, as stated, fails on a freshly constructed mechanism: with epsilon
    unset, check_inputs on a value that is not callable raises ValueError
    (the base check runs first), not TypeError; and once epsilon is set,
    with no function sensitivity yet, randomise on such a value raises
    TypeError, not ValueError. *)
Lemma check_inputs_not_callable_epsilon_unset :
  callable (Val VNone) = false /\
  check_inputs (Val VNone) fresh = (Raise ValueError, fresh) /\
  fst (randomise (Val VNone)
         (snd (set_epsilon_delta (VNum 1) (VNum 0) fresh))) = Raise TypeError /\
  ~ fst (check_inputs (Val VNone) fresh) = Raise TypeError.
Proof.
  split; [reflexivity|]. split; [reflexivity|]. split.
  - rewrite set_epsilon_delta_zero.
    rewrite (leb_pos 1) by lra. simpl.
    erewrite randomise_check_fails; [reflexivity|].
    rewrite check_inputs_cases. simpl. rewrite (leb_pos 1) by lra. reflexivity.
  - rewrite check_inputs_cases. simpl. discriminate.
Qed.

(** C7: a randomise call that fails has failed in its validation, before
    any draw from the generator and before the closure is built: the
    exception is the one check_inputs raises, and the object, the
    generator and the memory are exactly as they were; no closure is
    returned. *)
Theorem randomise_failure (value : pyobj) (s : world) (e : exn) :
  fst (randomise value s) = Raise e ->
  randomise value s = (Raise e, s) /\
  check_inputs value s = (Raise e, s).
Proof.
  intros H.
  destruct (fst (check_inputs value s)) as [b|e'] eqn:C.
  - destruct (randomise_check_passes value s b C) as (k & g & R).
    rewrite R in H. discriminate.
  - pose proof (randomise_check_fails value s e' C) as R.
    rewrite R in H. simpl in H. injection H as <-.
    split; [exact R|].
    pose proof (check_inputs_pure value s) as P.
    destruct (check_inputs value s); simpl in *; subst; reflexivity.
Qed.

(** ** The adjusted budget *)

Lemma budget_primary (e c g a : R) :
  0 < e - 2 * ln (1 + c * g / (0.5 * a)) ->
  budget e c g a =
  (e - 2 * ln (1 + c * g / (0.5 * a)), 0,
   (e - 2 * ln (1 + c * g / (0.5 * a))) / 2 / g).
Proof.
  intros H. unfold budget. rewrite (leb_pos _ H). reflexivity.
Qed.

Lemma budget_fallback (e c g a : R) :
  e - 2 * ln (1 + c * g / (0.5 * a)) <= 0 ->
  budget e c g a =
  (e / 2, c * g / (exp (e / 4) - 1) - 0.5 * a, e / 2 / 2 / g).
Proof.
  intros H. unfold budget. rewrite (leb_nonpos _ H). reflexivity.
Qed.

Lemma ln_201_above_half : 1 - 2 * ln (1 + 1 * 1 / (0.5 * 0.01)) <= 0.
Proof.
  replace (1 + 1 * 1 / (0.5 * 0.01)) with 201 by lra.
  assert (H : 1 < ln 201).
  { rewrite <- (ln_exp 1) at 1. apply ln_increasing.
    - apply exp_pos.
    - pose proof exp_le_3. lra. }
  lra.
Qed.

(** C1: for epsilon e > 0, sensitivities c > 0 and g > 0 and
    regularisation a > 0, randomise computes
    epsilon_p = e - 2*ln(1 + c*g/(0.5*a)) with delta = 0 when that is
    positive, and delta = c*g/(exp(e/4) - 1) - 0.5*a with epsilon_p = e/2
    when it is not; in both cases scale = epsilon_p/(2*g); the closure it
    returns carries that delta and the Gamma draw is made with scale
    1/scale.  For (e, c, g, a) = (1, 1, 1, 0.01) the fallback is taken:
    epsilon_p = 0.5 and delta = 1/(exp(0.25) - 1) - 0.005. *)
Theorem randomise_budget :
  (forall e c g a, 0 < e -> 0 < c -> 0 < g -> 0 < a ->
     let ep0 := e - 2 * ln (1 + c * g / (0.5 * a)) in
     let ep := fst (fst (budget e c g a)) in
     let dl := snd (fst (budget e c g a)) in
     let sc := snd (budget e c g a) in
     (0 < ep0 -> ep = ep0 /\ dl = 0) /\
     (ep0 <= 0 -> dl = c * g / (exp (e / 4) - 1) - 0.5 * a /\ ep = e / 2) /\
     sc = ep / (2 * g) /\
     (forall f s d,
        _epsilon (self s) = Some e ->
        _function_sensitivity (self s) = Some c ->
        _data_sensitivity (self s) = Some g ->
        _alpha (self s) = a ->
        _d (self s) = Some d ->
        exists k s' y,
          randomise (Fun f) s = (Ok k, s') /\ delta k = dl /\
          fst (Np.random_gamma (IZR d) (1 / sc)
                 (snd (Np.random_normal (Z.to_nat d) (np_random s)))) = Ok [y] /\
          np_random s' = snd (Np.random_gamma (IZR d) (1 / sc)
                 (snd (Np.random_normal (Z.to_nat d) (np_random s)))))) /\
  budget 1 1 1 0.01 = (0.5, 1 / (exp 0.25 - 1) - 0.005, 0.5 / (2 * 1)).
Proof.
  split.
  - intros e c g a He Hc Hg Ha ep0 ep dl sc. subst ep0 ep dl sc.
    split; [|split; [|split]].
    + intros H. rewrite (budget_primary _ _ _ _ H). auto.
    + intros H. rewrite (budget_fallback _ _ _ _ H). auto.
    + destruct (Rle_dec (e - 2 * ln (1 + c * g / (0.5 * a))) 0) as [H|H].
      * rewrite (budget_fallback _ _ _ _ H). simpl. field. lra.
      * apply Rnot_le_lt in H. rewrite (budget_primary _ _ _ _ H). simpl.
        field. lra.
    + intros f s d E C G A D.
      rewrite (randomise_ready f s e c g d E He C G D). simpl.
      rewrite A. do 3 eexists. repeat split.
  - rewrite (budget_fallback _ _ _ _ ln_201_above_half).
    f_equal; [f_equal|].
    + lra.
    + replace (1 / 4) with 0.25 by lra. lra.
    + lra.
Qed.

(** ** The direction of the noise vector *)

Lemma sum_squares_nonneg (v : list R) : 0 <= Np.sum (map (fun x => x * x) v).
Proof.
  induction v as [|x v IH]; simpl; [lra|]. pose proof (Rle_0_sqr x) as H.
  unfold Rsqr in H. lra.
Qed.

Lemma sum_squares_scaled (k : R) (v : list R) :
  k <> 0 ->
  Np.sum (map (fun x => x * x) (map (fun x => x / k) v)) =
  Np.sum (map (fun x => x * x) v) / (k * k).
Proof.
  intros Hk. induction v as [|x v IH]; simpl.
  - field. assumption.
  - rewrite IH. field. assumption.
Qed.

Lemma normalised_norm (v : list R) :
  Np.norm v <> 0 -> Np.norm (map (fun x => x / Np.norm v) v) = 1.
Proof.
  intros H. unfold Np.norm at 1. rewrite (sum_squares_scaled _ v H).
  unfold Np.norm. rewrite sqrt_sqrt by apply sum_squares_nonneg.
  unfold Np.norm in H.
  assert (S : Np.sum (map (fun x => x * x) v) <> 0).
  { intros Z. apply H. rewrite Z. apply sqrt_0. }
  replace (Np.sum (map (fun x => x * x) v) / Np.sum (map (fun x => x * x) v))
    with 1 by (field; assumption).
  apply sqrt_1.
Qed.

(** C8: for every dimension d >= 1 and every outcome v of the d
    standard-normal draws whose 2-norm is not zero, v divided by its own
    2-norm has 2-norm 1, and the noise vector captured by the closure is
    that unit vector scaled by the one Gamma sample drawn with shape d and
    scale 1/scale. *)
Theorem noise_direction_unit (f : pyfun) (s : world) (e c g : R) (d : Z) :
  _epsilon (self s) = Some e -> 0 < e ->
  _function_sensitivity (self s) = Some c ->
  _data_sensitivity (self s) = Some g ->
  _d (self s) = Some d -> (1 <= d)%Z ->
  let G := np_random s in
  let v := map (Np.normal_stream G) (seq (Np.cursor G) (Z.to_nat d)) in
  let scale := snd (budget e c g (_alpha (self s))) in
  let y := Np.gamma_sample G (IZR d) (1 / scale) (Np.cursor G + Z.to_nat d) in
  let unit := map (fun x => x / Np.norm v) v in
  Np.norm v <> 0 ->
  length v = Z.to_nat d /\
  fst (Np.random_normal (Z.to_nat d) G) = Ok v /\
  fst (Np.random_gamma (IZR d) (1 / scale)
         (snd (Np.random_normal (Z.to_nat d) G))) = Ok [y] /\
  Np.norm unit = 1 /\
  exists k s',
    randomise (Fun f) s = (Ok k, s') /\
    normed_noisy_vector k = Np.Ar (map (fun u => u * y) unit).
Proof.
  intros He Hpos Hc Hg Hd Hd1 G v scale y unit Hn.
  split; [|split; [|split; [|split]]].
  - subst v. rewrite length_map, length_seq. reflexivity.
  - reflexivity.
  - reflexivity.
  - apply normalised_norm. exact Hn.
  - rewrite (randomise_ready f s e c g d He Hpos Hc Hg Hd). simpl. eauto.
Qed.

(** ** Memory and the numpy operations *)

Lemma nth_error_update_same (h : heap) (l : loc) (u v : list R) :
  nth_error h l = Some u -> nth_error (update h l v) l = Some v.
Proof.
  revert l; induction h as [|u' h IH]; intros [|l]; simpl; try discriminate; auto.
Qed.

Lemma nth_error_update_other (h : heap) (l l' : loc) (v : list R) :
  l <> l' -> nth_error (update h l v) l' = nth_error h l'.
Proof.
  revert l l'; induction h as [|u h IH]; intros [|l] [|l'] H; simpl; auto.
  congruence.
Qed.

Lemma zip_with_length (f : R -> R -> R) (u v : list R) :
  length u = length v -> length (Np.zip_with f u v) = length u.
Proof.
  revert v; induction u as [|x u IH]; intros [|y v] H; simpl in *; auto.
Qed.

Lemma mul_scalars (x y : R) : Np.mul (Np.Sc x) (Np.Sc y) = Ok (Np.Sc (x * y)).
Proof. reflexivity. Qed.

Lemma add_arrays (u v : list R) :
  length u = length v ->
  Np.add (Np.Ar u) (Np.Ar v) = Ok (Np.Ar (Np.zip_with Rplus u v)).
Proof.
  intros H. unfold Np.add, Np.broadcast. rewrite H, Nat.eqb_refl. reflexivity.
Qed.

Lemma dot_arrays (u v : list R) :
  length u = length v ->
  Np.dot (Np.Ar u) (Np.Ar v) = Ok (Np.Sc (Np.inner u v)).
Proof.
  intros H. unfold Np.dot. rewrite H, Nat.eqb_refl. reflexivity.
Qed.

Lemma asarray_array (l : loc) (h : heap) (v : list R) :
  nth_error h l = Some v -> Np.asarray (VArray l) h = (Ok (Np.Ar v), h).
Proof. intros H. unfold Np.asarray, load. run. rewrite H. reflexivity. Qed.

Lemma scale_array (k : R) (l : loc) (h : heap) (v : list R) :
  nth_error h l = Some v ->
  Np.scale k (VArray l) h = (Ok (Np.Ar (map (Rmult k) v)), h).
Proof. intros H. unfold Np.scale, load. run. rewrite H. reflexivity. Qed.

Lemma iadd_number (x y : R) (h : heap) :
  Np.iadd (VNum x) (Np.Sc y) h = (Ok (VNum (x + y)), h).
Proof. reflexivity. Qed.

(** The in-place sum keeps the address and replaces the contents. *)
Lemma iadd_array (l : loc) (h : heap) (u v : list R) :
  nth_error h l = Some u -> length u = length v ->
  Np.iadd (VArray l) (Np.Ar v) h =
  (Ok (VArray l), update h l (Np.zip_with Rplus u v)).
Proof.
  intros H L. unfold Np.iadd, load. run. rewrite H. simpl.
  rewrite (add_arrays u v L). simpl.
  rewrite (zip_with_length Rplus u v L), Nat.eqb_refl. reflexivity.
Qed.

(** What [randomise] hands to the closure. *)
Lemma randomise_closure (value0 : pyobj) (s s' : world) (k : closure) :
  randomise value0 s = (Ok k, s') ->
  exists f b d,
    value0 = Fun f /\ value k = Fun f /\
    normed_noisy_vector k = Np.Ar b /\
    _d (self s) = Some d /\ length b = Z.to_nat d /\
    self s' = self s /\ memory s' = memory s.
Proof.
  intros H.
  destruct (fst (check_inputs value0 s)) as [b0|e'] eqn:C.
  - apply check_inputs_ok in C.
    destruct C as [Hc (e & c & g & d & He & Hpos & Hfs & Hds & Hd)].
    destruct value0 as [f|v]; [|discriminate].
    rewrite (randomise_ready f s e c g d He Hpos Hfs Hds Hd) in H.
    simpl in H. injection H as <- <-. simpl.
    eexists f, _, d. repeat split; try assumption.
    rewrite !length_map, length_seq. reflexivity.
  - rewrite (randomise_check_fails value0 s e' C) in H. discriminate.
Qed.

(** ** The closure *)

Lemma bind_ok {S A B} (m : M S A) (k : A -> M S B) (s s' : S) (a : A) :
  m s = (Ok a, s') -> bind m k s = k a s'.
Proof. intros H. unfold bind. rewrite H. reflexivity. Qed.

Ltac step tac := erewrite bind_ok; [| solve [tac]].

Lemma output_func_pair (k : closure) (f : pyfun) (b : list R)
    (lw : loc) (rest : list pyval) (h h1 : heap) (wv : list R)
    (fv : R) (lg : loc) (gv : list R) :
  value k = Fun f -> normed_noisy_vector k = Np.Ar b ->
  f (VArray lw :: rest) h = (Ok (VTuple [VNum fv; VArray lg]), h1) ->
  nth_error h1 lw = Some wv -> length wv = length b ->
  nth_error h1 lg = Some gv -> length gv = length b ->
  output_func k (VArray lw :: rest) h =
  (Ok (VTuple [VNum (fv + Np.inner b wv + 0.5 * delta k * Np.inner wv wv);
               VArray lg]),
   update h1 lg
     (Np.zip_with Rplus gv
        (Np.zip_with Rplus b (map (Rmult (delta k)) wv)))).
Proof.
  intros Hv Hb Hf Hw Lw Hg Lg. unfold output_func.
  step reflexivity.
  step ltac:(unfold call_value; rewrite Hv; exact Hf).
  step reflexivity. simpl.
  step ltac:(apply asarray_array; exact Hw).
  step ltac:(unfold lift; rewrite Hb, dot_arrays by congruence; reflexivity).
  step ltac:(apply iadd_number).
  step ltac:(apply asarray_array; exact Hw).
  step ltac:(unfold lift; rewrite dot_arrays by reflexivity; reflexivity).
  step ltac:(unfold lift; rewrite mul_scalars; reflexivity).
  step ltac:(apply iadd_number).
  step ltac:(apply scale_array; exact Hw).
  step ltac:(unfold lift; rewrite Hb, add_arrays
               by (rewrite length_map; congruence); reflexivity).
  step ltac:(apply iadd_array;
             [exact Hg
             | rewrite zip_with_length by (rewrite length_map; congruence);
               congruence]).
  reflexivity.
Qed.

Lemma output_func_scalar (k : closure) (f : pyfun) (b : list R)
    (lw : loc) (rest : list pyval) (h h1 : heap) (wv : list R) (fv : R) :
  value k = Fun f -> normed_noisy_vector k = Np.Ar b ->
  f (VArray lw :: rest) h = (Ok (VNum fv), h1) ->
  nth_error h1 lw = Some wv -> length wv = length b ->
  output_func k (VArray lw :: rest) h =
  (Ok (VNum (fv + Np.inner b wv + 0.5 * delta k * Np.inner wv wv)), h1).
Proof.
  intros Hv Hb Hf Hw Lw. unfold output_func.
  step reflexivity.
  step ltac:(unfold call_value; rewrite Hv; exact Hf).
  step reflexivity. simpl.
  step ltac:(apply asarray_array; exact Hw).
  step ltac:(unfold lift; rewrite Hb, dot_arrays by congruence; reflexivity).
  step ltac:(apply iadd_number).
  step ltac:(apply asarray_array; exact Hw).
  step ltac:(unfold lift; rewrite dot_arrays by reflexivity; reflexivity).
  step ltac:(unfold lift; rewrite mul_scalars; reflexivity).
  step ltac:(apply iadd_number).
  reflexivity.
Qed.

(** C2: for a closure returned by randomise, with captured noise vector b
    and residual delta, called on arguments whose first element is the
    array w (of the length of b): when the wrapped function returns the
    pair (f, grad), the closure returns the pair
    (f + dot(b, w) + 0.5*delta*dot(w, w), grad) where the array grad now
    holds grad + b + delta*w and no other array has changed; when it
    returns the bare number f, the closure returns the bare number
    f + dot(b, w) + 0.5*delta*dot(w, w). *)
Theorem output_func_spec (value0 : pyobj) (s s' : world) (k : closure) :
  randomise value0 s = (Ok k, s') ->
  exists f b,
    value0 = Fun f /\ normed_noisy_vector k = Np.Ar b /\
    forall (lw : loc) (rest : list pyval) (h h1 : heap) (wv : list R),
      nth_error h1 lw = Some wv -> length wv = length b ->
      (forall fv lg gv,
         f (VArray lw :: rest) h = (Ok (VTuple [VNum fv; VArray lg]), h1) ->
         nth_error h1 lg = Some gv -> length gv = length b ->
         let grad' :=
           Np.zip_with Rplus gv
             (Np.zip_with Rplus b (map (Rmult (delta k)) wv)) in
         output_func k (VArray lw :: rest) h =
           (Ok (VTuple [VNum (fv + Np.inner b wv
                              + 0.5 * delta k * Np.inner wv wv);
                        VArray lg]),
            update h1 lg grad') /\
         nth_error (update h1 lg grad') lg = Some grad' /\
         (forall l, lg <> l ->
            nth_error (update h1 lg grad') l = nth_error h1 l)) /\
      (forall fv,
         f (VArray lw :: rest) h = (Ok (VNum fv), h1) ->
         output_func k (VArray lw :: rest) h =
           (Ok (VNum (fv + Np.inner b wv + 0.5 * delta k * Np.inner wv wv)),
            h1)).
Proof.
  intros H.
  destruct (randomise_closure value0 s s' k H)
    as (f & b & d & Hv0 & Hv & Hb & _).
  exists f, b. split; [exact Hv0|]. split; [exact Hb|].
  intros lw rest h h1 wv Hw Lw. split.
  - intros fv lg gv Hf Hg Lg grad'. split; [|split].
    + apply (output_func_pair k f b lw rest h h1 wv fv lg gv); assumption.
    + apply (nth_error_update_same h1 lg gv grad' Hg).
    + intros l Hl. apply nth_error_update_other. exact Hl.
  - intros fv Hf.
    apply (output_func_scalar k f b lw rest h h1 wv fv); assumption.
Qed.

(** ** Results that are not tuples *)

Lemma nth_error_fresh (h : heap) (v : list R) :
  nth_error (h ++ [v]) (length h) = Some v.
Proof. rewrite nth_error_app2, Nat.sub_diag by lia. reflexivity. Qed.

Lemma nth_error_kept (h : heap) (l : loc) (u v : list R) :
  nth_error h l = Some u -> nth_error (h ++ [v]) l = Some u.
Proof.
  intros H. rewrite nth_error_app1; [exact H|].
  apply nth_error_Some. congruence.
Qed.

Lemma update_fresh (h : heap) (u v : list R) :
  update (h ++ [u]) (length h) v = h ++ [v].
Proof. induction h as [|x h IH]; simpl; [reflexivity|]. rewrite IH. reflexivity. Qed.

Lemma output_func_bare (k : closure) (f : pyfun) (w : pyval)
    (rest : list pyval) (h h1 : heap) (r : pyval) :
  value k = Fun f ->
  f (w :: rest) h = (Ok r, h1) -> is_tuple r = false ->
  output_func k (w :: rest) h =
  (wv <- Np.asarray w ;;
   p <- lift (Np.dot (normed_noisy_vector k) wv) ;;
   func <- Np.iadd r p ;;
   wv <- Np.asarray w ;;
   q <- lift (Np.dot wv wv) ;;
   q <- lift (Np.mul (Np.Sc (0.5 * delta k)) q) ;;
   Np.iadd func q) h1.
Proof.
  intros Hv Hf Ht. unfold output_func.
  step reflexivity.
  step ltac:(unfold call_value; rewrite Hv; exact Hf).
  step ltac:(unfold split_result, lift; rewrite Ht; reflexivity).
  simpl. unfold bind, ret.
  destruct (Np.asarray w h1) as [[wv|e] h2]; [|reflexivity].
  destruct (lift (Np.dot (normed_noisy_vector k) wv) h2) as [[p|e] h3];
    [|reflexivity].
  destruct (Np.iadd r p h3) as [[func|e] h4]; [|reflexivity].
  destruct (Np.asarray w h4) as [[wv'|e] h5]; [|reflexivity].
  destruct (lift (Np.dot wv' wv') h5) as [[q|e] h6]; [|reflexivity].
  destruct (lift (Np.mul (Np.Sc (0.5 * delta k)) q) h6) as [[q'|e] h7];
    [|reflexivity].
  destruct (Np.iadd func q' h7) as [[func'|e] h8]; reflexivity.
Qed.

Lemma output_func_list (k : closure) (f : pyfun) (b : list R)
    (lw : loc) (rest : list pyval) (h h1 : heap) (wv : list R)
    (l : list pyval) :
  value k = Fun f -> normed_noisy_vector k = Np.Ar b ->
  f (VArray lw :: rest) h = (Ok (VList l), h1) -> Np.all_num l = true ->
  nth_error h1 lw = Some wv -> length wv = length b ->
  output_func k (VArray lw :: rest) h =
  (Ok (VArray (length h1)),
   h1 ++ [map (fun x => x + 0.5 * delta k * Np.inner wv wv)
            (map (fun x => x + Np.inner b wv) (map num l))]).
Proof.
  intros Hv Hb Hf Hl Hw Lw.
  rewrite (output_func_bare k f (VArray lw) rest h h1 (VList l) Hv Hf eq_refl).
  step ltac:(apply asarray_array; exact Hw).
  step ltac:(unfold lift; rewrite Hb, dot_arrays by congruence; reflexivity).
  step ltac:(unfold Np.iadd, Np.asarray; rewrite Hl; reflexivity).
  step ltac:(apply asarray_array; apply nth_error_kept; exact Hw).
  step ltac:(unfold lift; rewrite dot_arrays by reflexivity; reflexivity).
  step ltac:(unfold lift; rewrite mul_scalars; reflexivity).
  unfold Np.iadd, load. run. rewrite nth_error_fresh. simpl.
  unfold Np.add, Np.broadcast. simpl.
  rewrite !length_map, Nat.eqb_refl. unfold store. simpl.
  rewrite update_fresh. reflexivity.
Qed.

(** C9: the result of the wrapped function is unpacked into
    (value, gradient) exactly when it is a tuple (a tuple that has not two
    elements cannot be unpacked); any other result is the value itself
    with no gradient, and the closure returns it, perturbed, alone.  In
    particular a list of numbers is not unpacked: the closure returns one
    new array, each number of the list plus the perturbation. *)
Theorem result_pair_iff_tuple (value0 : pyobj) (s s' : world) (k : closure) :
  randomise value0 s = (Ok k, s') ->
  (forall r, is_tuple r = false -> split_result r = Ok (r, VNone)) /\
  (forall l, split_result (VTuple l) =
             match l with [f; g] => Ok (f, g) | _ => Raise ValueError end) /\
  exists f b,
    value0 = Fun f /\ normed_noisy_vector k = Np.Ar b /\
    (forall w rest h h1 r,
       f (w :: rest) h = (Ok r, h1) -> is_tuple r = false ->
       output_func k (w :: rest) h =
       (wv <- Np.asarray w ;;
        p <- lift (Np.dot (normed_noisy_vector k) wv) ;;
        func <- Np.iadd r p ;;
        wv <- Np.asarray w ;;
        q <- lift (Np.dot wv wv) ;;
        q <- lift (Np.mul (Np.Sc (0.5 * delta k)) q) ;;
        Np.iadd func q) h1) /\
    (forall lw rest h h1 wv x y,
       f (VArray lw :: rest) h = (Ok (VList [VNum x; VNum y]), h1) ->
       nth_error h1 lw = Some wv -> length wv = length b ->
       let pert := fun z => z + Np.inner b wv + 0.5 * delta k * Np.inner wv wv in
       output_func k (VArray lw :: rest) h =
       (Ok (VArray (length h1)), h1 ++ [[pert x; pert y]])).
Proof.
  intros H. split; [|split].
  - intros r Hr. unfold split_result. rewrite Hr. reflexivity.
  - intros [|f [|g [|x l]]]; reflexivity.
  - destruct (randomise_closure value0 s s' k H)
      as (f & b & d & Hv0 & Hv & Hb & _).
    exists f, b. split; [exact Hv0|]. split; [exact Hb|]. split.
    + intros w rest h h1 r Hf Hr.
      apply (output_func_bare k f w rest h h1 r Hv Hf Hr).
    + intros lw rest h h1 wv x y Hf Hw Lw pert.
      rewrite (output_func_list k f b lw rest h h1 wv [VNum x; VNum y]
                 Hv Hb Hf eq_refl Hw Lw).
      reflexivity.
Qed.

(** ** Repeated calls of the closure *)

Lemma norm_sample : Np.norm [0.6; -0.8] = 1.
Proof.
  unfold Np.norm. simpl.
  replace (0.6 * 0.6 + (-0.8 * -0.8 + 0)) with 1 by lra.
  apply sqrt_1.
Qed.

Lemma budget_sample :
  budget 1 1 1 0.01 = (1 / 2, 1 * 1 / (exp (1 / 4) - 1) - 0.5 * 0.01, 1 / 2 / 2 / 1).
Proof. apply budget_fallback. exact ln_201_above_half. Qed.

Lemma fallback_delta_sample : 0.4 < 1 * 1 / (exp (1 / 4) - 1) - 0.5 * 0.01.
Proof.
  assert (L : 1 < exp (1 / 4)).
  { pose proof (exp_increasing 0 (1 / 4)) as H. rewrite exp_0 in H.
    apply H. lra. }
  assert (U : exp (1 / 4) < 3).
  { apply Rlt_le_trans with (exp 1); [apply exp_increasing; lra | exact exp_le_3]. }
  assert (P : 0 < exp (1 / 4) - 1) by lra.
  assert (I : / 2 < / (exp (1 / 4) - 1)).
  { apply Rinv_lt_contravar; [|lra]. apply Rmult_lt_0_compat; lra. }
  unfold Rdiv in *. lra.
Qed.

(** The closure [randomise] returns on the sample state. *)
Lemma randomise_sample (f : pyfun) :
  randomise (Fun f) ready =
  (Ok {| value := Fun f;
         normed_noisy_vector := Np.Ar [0.6 / 1 * 0.5; -0.8 / 1 * 0.5];
         delta := 1 * 1 / (exp (1 / 4) - 1) - 0.5 * 0.01 |},
   {| self := self ready;
      np_random := Np.advance 1 (Np.advance 2 sample_generator);
      memory := memory ready |}).
Proof.
  rewrite (randomise_ready f ready 1 1 1 2%Z eq_refl Rlt_0_1 eq_refl eq_refl eq_refl).
  cbv zeta. simpl _alpha. rewrite budget_sample.
  change (Z.to_nat 2) with 2%nat.
  simpl. rewrite norm_sample. reflexivity.
Qed.

Lemma linear_objective_result (c lw : loc) (h : heap) (cv wv : list R) :
  nth_error h c = Some cv -> nth_error h lw = Some wv ->
  length cv = length wv ->
  linear_objective c [VArray lw] h =
  (Ok (VTuple [VNum (Np.inner cv wv); VArray c]), h).
Proof.
  intros Hc Hw L. unfold linear_objective.
  step reflexivity.
  step ltac:(apply asarray_array; exact Hc).
  step ltac:(apply asarray_array; exact Hw).
  step ltac:(unfold lift; rewrite dot_arrays by exact L; reflexivity).
  step reflexivity.
  reflexivity.
Qed.

(** C3 at a failing input.  The wrapped function is the linear objective
    [lambda w: (c @ w, c)] with c = [1, 2]; the closure comes from one
    randomise call and is called twice on the same array w = [1, 1].
    Both calls use the same noise vector and delta and leave the object,
    the generator and w untouched, but the first call has added the
    perturbation to the array c in place, so the second call returns
    another value. *)
Theorem wrapper_second_call_differs :
  exists k s1,
    randomise (Fun (linear_objective 1)) ready = (Ok k, s1) /\
    exists f1 f2 s2 s3,
      call k [VArray 0] s1 = (Ok (VTuple [VNum f1; VArray 1]), s2) /\
      call k [VArray 0] s2 = (Ok (VTuple [VNum f2; VArray 1]), s3) /\
      nth_error (memory s1) 0 = Some [1; 1] /\
      nth_error (memory s2) 0 = Some [1; 1] /\
      self s2 = self s1 /\ np_random s2 = np_random s1 /\
      nth_error (memory s1) 1 = Some [1; 2] /\
      nth_error (memory s2) 1 <> Some [1; 2] /\
      f1 <> f2.
Proof.
  pose proof fallback_delta_sample as HD.
  eexists. eexists. split; [apply randomise_sample|].
  set (D := 1 * 1 / (exp (1 / 4) - 1) - 0.5 * 0.01) in *.
  set (b := [0.6 / 1 * 0.5; -0.8 / 1 * 0.5]).
  set (k := {| value := Fun (linear_objective 1);
               normed_noisy_vector := Np.Ar b; delta := D |}).
  set (g1 := Np.zip_with Rplus [1; 2]
               (Np.zip_with Rplus b (map (Rmult D) [1; 1]))).
  set (h := [[1; 1]; [1; 2]]).
  assert (C1 : output_func k [VArray 0] h =
               (Ok (VTuple [VNum (Np.inner [1; 2] [1; 1] + Np.inner b [1; 1]
                                  + 0.5 * D * Np.inner [1; 1] [1; 1]);
                            VArray 1]),
                update h 1 g1)).
  { apply (output_func_pair k (linear_objective 1) b 0%nat [] h h [1; 1]
             (Np.inner [1; 2] [1; 1]) 1%nat [1; 2]);
      [reflexivity | reflexivity | | reflexivity ..].
    apply (linear_objective_result 1%nat 0%nat h [1; 2] [1; 1]); reflexivity. }
  assert (C2 : output_func k [VArray 0] (update h 1 g1) =
               (Ok (VTuple [VNum (Np.inner g1 [1; 1] + Np.inner b [1; 1]
                                  + 0.5 * D * Np.inner [1; 1] [1; 1]);
                            VArray 1]),
                update (update h 1 g1) 1
                  (Np.zip_with Rplus g1
                     (Np.zip_with Rplus b (map (Rmult D) [1; 1]))))).
  { apply (output_func_pair k (linear_objective 1) b 0%nat []
             (update h 1 g1) (update h 1 g1) [1; 1]
             (Np.inner g1 [1; 1]) 1%nat g1);
      [reflexivity | reflexivity | | reflexivity ..].
    apply (linear_objective_result 1%nat 0%nat (update h 1 g1) g1 [1; 1]); reflexivity. }
  do 4 eexists.
  split; [unfold call, on_memory; cbn [memory ready]; fold h; rewrite C1;
          reflexivity|].
  split; [unfold call, on_memory; cbn [memory]; rewrite C2; reflexivity|].
  repeat split.
  - simpl. intros [= E1 E2]. lra.
  - unfold Np.inner. simpl. lra.
Qed.

(** ** The theorems at the sample states *)

Lemma setters_fail_without_assignment_witness :
  snd (set_alpha (VNum 0) fresh) = fresh /\
  exists e, set_sensitivity (VNum 1) VNone fresh = (Raise e, fresh).
Proof.
  destruct setters_fail_without_assignment as (_ & Ha & _ & Hs).
  split.
  - apply (Ha (VNum 0) fresh ValueError).
    unfold set_alpha. simpl. rewrite (leb_nonpos 0 (Rle_refl 0)). reflexivity.
  - apply (Hs 1 VNone fresh Rlt_0_1). left. reflexivity.
Defined.

Lemma set_epsilon_delta_spec_witness :
  set_epsilon_delta (VNum 1) (VNum 1) fresh = (Raise ValueError, fresh) /\
  fst (set_epsilon_delta (VNum 1) (VNum 0) fresh) = Ok tt.
Proof.
  destruct set_epsilon_delta_spec as (Hd & _ & He).
  split.
  - apply (Hd (VNum 1) (VNum 1) fresh). left. simpl.
    unfold eqb. destruct (Req_dec_T 1 0) as [E|E]; [exfalso; lra | reflexivity].
  - apply (He 1 fresh Rlt_0_1).
Defined.

Lemma check_inputs_spec_witness :
  randomise (Fun zero_objective) fresh = (Raise ValueError, fresh) /\
  check_inputs (Val VNone) ready = (Raise TypeError, ready) /\
  check_inputs (Fun zero_objective) ready = (Ok true, ready).
Proof.
  destruct check_inputs_spec as (Hr & Ht & Ho & _).
  split; [|split].
  - apply (Hr zero_objective fresh). left. reflexivity.
  - apply (Ht VNone ready 1 eq_refl Rlt_0_1).
  - apply (Ho zero_objective ready 1 1 1 2%Z eq_refl Rlt_0_1 eq_refl eq_refl eq_refl).
Defined.

Lemma randomise_failure_witness :
  randomise (Val VNone) fresh = (Raise ValueError, fresh) /\
  check_inputs (Val VNone) fresh = (Raise ValueError, fresh).
Proof.
  apply (randomise_failure (Val VNone) fresh ValueError).
  rewrite (randomise_check_fails (Val VNone) fresh ValueError); reflexivity.
Defined.

Lemma randomise_budget_witness :
  snd (budget 1 1 1 0.01) = fst (fst (budget 1 1 1 0.01)) / (2 * 1) /\
  exists k s' y,
    randomise (Fun zero_objective) ready = (Ok k, s') /\
    delta k = snd (fst (budget 1 1 1 0.01)) /\
    fst (Np.random_gamma 2 (1 / snd (budget 1 1 1 0.01))
           (snd (Np.random_normal 2 sample_generator))) = Ok [y].
Proof.
  destruct randomise_budget as (H & _).
  assert (A : 0 < 0.01) by lra.
  destruct (H 1 1 1 0.01 Rlt_0_1 Rlt_0_1 Rlt_0_1 A) as (_ & _ & Hs & Hr).
  split; [exact Hs|].
  destruct (Hr zero_objective ready 2%Z eq_refl eq_refl eq_refl eq_refl eq_refl)
    as (k & s' & y & R & Dk & Gy & _).
  exists k, s', y. split; [exact R|]. split; [exact Dk|]. exact Gy.
Defined.

Lemma noise_direction_unit_witness :
  Np.norm (map (fun x => x / Np.norm [0.6; -0.8]) [0.6; -0.8]) = 1.
Proof.
  assert (D : (1 <= 2)%Z) by lia.
  assert (N : Np.norm [0.6; -0.8] <> 0) by (rewrite norm_sample; lra).
  destruct (noise_direction_unit zero_objective ready 1 1 1 2%Z
              eq_refl Rlt_0_1 eq_refl eq_refl eq_refl D N)
    as (_ & _ & _ & H & _).
  exact H.
Defined.

Lemma output_func_spec_witness :
  exists k s' b,
    randomise (Fun zero_objective) ready = (Ok k, s') /\
    normed_noisy_vector k = Np.Ar b /\
    fst (output_func k [VArray 0] (memory s')) =
      Ok (VTuple [VNum (0 + Np.inner b [1; 1]
                        + 0.5 * delta k * Np.inner [1; 1] [1; 1]);
                  VArray 2]).
Proof.
  pose proof (randomise_sample zero_objective) as R.
  destruct (output_func_spec _ _ _ _ R) as (f & b & Hf & Hb & H).
  injection Hf as <-.
  injection Hb as <-.
  eexists _, _, _. split; [exact R|]. split; [reflexivity|].
  destruct (H 0%nat [] (memory ready) (memory ready ++ [[0; 0]]) [1; 1]
              eq_refl eq_refl) as (Hp & _).
  destruct (Hp 0 2%nat [0; 0] eq_refl eq_refl eq_refl) as (Ho & _ & _).
  cbn [memory]. rewrite Ho. reflexivity.
Defined.

Lemma result_pair_iff_tuple_witness :
  exists k s' b,
    randomise (Fun list_objective) ready = (Ok k, s') /\
    normed_noisy_vector k = Np.Ar b /\
    fst (output_func k [VArray 0] (memory s')) = Ok (VArray 2).
Proof.
  pose proof (randomise_sample list_objective) as R.
  destruct (result_pair_iff_tuple _ _ _ _ R) as (_ & _ & f & b & Hf & Hb & _ & H).
  injection Hf as <-.
  injection Hb as <-.
  eexists _, _, _. split; [exact R|]. split; [reflexivity|].
  cbn [memory].
  rewrite (H 0%nat [] (memory ready) (memory ready) [1; 1]
             (Np.inner [1; 1] [1; 1]) 1 eq_refl eq_refl eq_refl).
  reflexivity.
Defined.

(** * Further properties of the mechanism *)

(** ** The setters *)

Lemma set_sensitivity_cases (fs ds : pyval) (s : world) :
  set_sensitivity fs ds s =
  if negb (is_Real fs) || negb (is_Real ds) then (Raise TypeError, s)
  else if leb (num fs) 0 || leb (num ds) 0 then (Raise ValueError, s)
  else (Ok tt,
        with_self s
          {| _epsilon := _epsilon (self s);
             _delta := _delta (self s);
             _function_sensitivity := Some (num fs);
             _data_sensitivity := Some (num ds);
             _d := _d (self s);
             _alpha := _alpha (self s) |}).
Proof.
  unfold set_sensitivity.
  destruct (negb (is_Real fs) || negb (is_Real ds)); [reflexivity|].
  destruct (leb (num fs) 0 || leb (num ds) 0); reflexivity.
Qed.

Lemma set_alpha_cases (alpha : pyval) (s : world) :
  set_alpha alpha s =
  if negb (is_Real alpha) then (Raise TypeError, s)
  else if leb (num alpha) 0 then (Raise ValueError, s)
  else (Ok tt,
        with_self s
          {| _epsilon := _epsilon (self s);
             _delta := _delta (self s);
             _function_sensitivity := _function_sensitivity (self s);
             _data_sensitivity := _data_sensitivity (self s);
             _d := _d (self s);
             _alpha := num alpha |}).
Proof.
  unfold set_alpha.
  destruct (negb (is_Real alpha)); [reflexivity|].
  destruct (leb (num alpha) 0); reflexivity.
Qed.



Lemma bind_seq {S A B} (m : M S A) (k : M S B) (s s' : S) (a : A) :
  m s = (Ok a, s') -> (m ;;; k) s = k s'.
Proof. intros H. unfold bind. rewrite H. reflexivity. Qed.

Lemma set_sensitivity_ok (c g : R) (s : world) :
  0 < c -> 0 < g ->
  set_sensitivity (VNum c) (VNum g) s =
  (Ok tt,
   with_self s
     {| _epsilon := _epsilon (self s);
        _delta := _delta (self s);
        _function_sensitivity := Some c;
        _data_sensitivity := Some g;
        _d := _d (self s);
        _alpha := _alpha (self s) |}).
Proof.
  intros Hc Hg. rewrite set_sensitivity_cases. simpl.
  rewrite (leb_pos _ Hc), (leb_pos _ Hg). reflexivity.
Qed.

Lemma set_alpha_ok (a : R) (s : world) :
  0 < a ->
  set_alpha (VNum a) s =
  (Ok tt,
   with_self s
     {| _epsilon := _epsilon (self s);
        _delta := _delta (self s);
        _function_sensitivity := _function_sensitivity (self s);
        _data_sensitivity := _data_sensitivity (self s);
        _d := _d (self s);
        _alpha := a |}).
Proof.
  intros Ha. rewrite set_alpha_cases. simpl. rewrite (leb_pos _ Ha). reflexivity.
Qed.

Lemma set_dimension_ok (d : pyval) (s : world) :
  fst (set_dimension d s) = Ok tt ->
  set_dimension d s =
  (Ok tt,
   with_self s
     {| _epsilon := _epsilon (self s);
        _delta := _delta (self s);
        _function_sensitivity := _function_sensitivity (self s);
        _data_sensitivity := _data_sensitivity (self s);
        _d := Some (int (num d));
        _alpha := _alpha (self s) |}).
Proof.
  rewrite set_dimension_cases.
  destruct (negb (is_Real d) || negb (Np.isclose (num d) (IZR (int (num d)))));
    [discriminate|].
  destruct (negb (leb 1 (num d))); [discriminate|]. reflexivity.
Qed.

(** Whether set_dimension accepts its argument does not depend on the
    state. *)
Lemma set_dimension_ok_any (d : pyval) (s s' : world) :
  fst (set_dimension d s) = Ok tt -> fst (set_dimension d s') = Ok tt.
Proof.
  rewrite !set_dimension_cases.
  destruct (negb (is_Real d) || negb (Np.isclose (num d) (IZR (int (num d)))));
    [discriminate|].
  destruct (negb (leb 1 (num d))); [discriminate|]. reflexivity.
Qed.

(** X3: a setter keeps no trace of an earlier successful call: calling
    set_sensitivity, set_alpha or set_dimension twice leaves the state of
    the second call alone.  In particular set_sensitivity called without a
    data sensitivity does not keep the one set before: it stores the
    default 1. *)
Theorem setters_overwrite :
  (forall c1 g1 c2 g2 s, 0 < c1 -> 0 < g1 -> 0 < c2 -> 0 < g2 ->
     (set_sensitivity (VNum c1) (VNum g1) ;;;
      set_sensitivity (VNum c2) (VNum g2)) s =
     set_sensitivity (VNum c2) (VNum g2) s) /\
  (forall c1 g1 c2 s, 0 < c1 -> 0 < g1 -> 0 < c2 ->
     _data_sensitivity
       (self (snd ((set_sensitivity (VNum c1) (VNum g1) ;;;
                    set_sensitivity_default (VNum c2)) s))) = Some 1) /\
  (forall a1 a2 s, 0 < a1 -> 0 < a2 ->
     (set_alpha (VNum a1) ;;; set_alpha (VNum a2)) s = set_alpha (VNum a2) s) /\
  (forall d1 d2 s,
     fst (set_dimension d1 s) = Ok tt -> fst (set_dimension d2 s) = Ok tt ->
     (set_dimension d1 ;;; set_dimension d2) s = set_dimension d2 s).
Proof.
  split; [|split; [|split]].
  - intros c1 g1 c2 g2 s H1 H2 H3 H4.
    rewrite (bind_seq _ _ s _ tt (set_sensitivity_ok c1 g1 s H1 H2)).
    rewrite !(set_sensitivity_ok c2 g2 _ H3 H4). reflexivity.
  - intros c1 g1 c2 s H1 H2 H3. unfold set_sensitivity_default.
    rewrite (bind_seq _ _ s _ tt (set_sensitivity_ok c1 g1 s H1 H2)).
    rewrite (set_sensitivity_ok c2 1 _ H3 Rlt_0_1). reflexivity.
  - intros a1 a2 s H1 H2.
    rewrite (bind_seq _ _ s _ tt (set_alpha_ok a1 s H1)).
    rewrite !(set_alpha_ok a2 _ H2). reflexivity.
  - intros d1 d2 s H1 H2.
    rewrite (bind_seq _ _ s _ tt (set_dimension_ok d1 s H1)).
    rewrite (set_dimension_ok d2 s H2).
    rewrite (set_dimension_ok d2 _ (set_dimension_ok_any d2 s _ H2)).
    reflexivity.
Qed.

(** X4: the setters are independent of each other: when set_sensitivity,
    set_alpha and set_dimension are each given arguments they accept, any
    two of them can be called in either order with the same resulting
    state. *)
Theorem setters_commute (c g a : R) (d : pyval) (s : world) :
  0 < c -> 0 < g -> 0 < a -> fst (set_dimension d s) = Ok tt ->
  (set_sensitivity (VNum c) (VNum g) ;;; set_alpha (VNum a)) s =
  (set_alpha (VNum a) ;;; set_sensitivity (VNum c) (VNum g)) s /\
  (set_sensitivity (VNum c) (VNum g) ;;; set_dimension d) s =
  (set_dimension d ;;; set_sensitivity (VNum c) (VNum g)) s /\
  (set_alpha (VNum a) ;;; set_dimension d) s =
  (set_dimension d ;;; set_alpha (VNum a)) s.
Proof.
  intros Hc Hg Ha Hd.
  rewrite !(bind_seq _ _ s _ tt (set_sensitivity_ok c g s Hc Hg)).
  rewrite !(bind_seq _ _ s _ tt (set_alpha_ok a s Ha)).
  rewrite !(bind_seq _ _ s _ tt (set_dimension_ok d s Hd)).
  rewrite !(set_sensitivity_ok c g _ Hc Hg), !(set_alpha_ok a _ Ha).
  rewrite !(set_dimension_ok d _ (set_dimension_ok_any d s _ Hd)).
  repeat split.
Qed.

(** ** set_dimension: what is stored *)

Lemma int_nonneg (x : R) : 0 <= x -> IZR (int x) <= x < IZR (int x) + 1.
Proof.
  intros H. unfold int. destruct (Rle_dec 0 x); [|contradiction].
  pose proof (base_Int_part x) as [A B]. lra.
Qed.

Lemma int_ge_1 (x : R) : 1 <= x -> (1 <= int x)%Z.
Proof.
  intros H. assert (P : 0 <= x) by lra.
  pose proof (int_nonneg x P) as [_ B].
  assert (L : IZR 0 < IZR (int x)) by lra.
  apply lt_IZR in L. lia.
Qed.

Lemma int_IZR (n : Z) : int (IZR n) = n.
Proof.
  unfold int. destruct (Rle_dec 0 (IZR n)) as [H|H].
  - symmetry. apply Int_part_spec. lra.
  - rewrite <- opp_IZR.
    replace (Int_part (IZR (- n))) with (- n)%Z; [lia|].
    apply Int_part_spec. lra.
Qed.

Lemma isclose_refl (x : R) : Np.isclose x x = true.
Proof.
  unfold Np.isclose, Np.atol, Np.rtol. apply leb_true.
  replace (x - x) with 0 by lra. rewrite Rabs_R0.
  pose proof (Rabs_pos x). lra.
Qed.

(** X5: every integer n >= 1 is accepted by set_dimension, which then
    stores exactly n; every integer n <= 0 is rejected with ValueError. *)
Theorem set_dimension_integer (n : Z) (s : world) :
  ((1 <= n)%Z ->
     fst (set_dimension (VNum (IZR n)) s) = Ok tt /\
     _d (self (snd (set_dimension (VNum (IZR n)) s))) = Some n) /\
  ((n <= 0)%Z ->
     set_dimension (VNum (IZR n)) s = (Raise ValueError, s)).
Proof.
  rewrite set_dimension_cases. simpl. rewrite int_IZR, isclose_refl. simpl.
  split; intros H.
  - replace (leb 1 (IZR n)) with true; [simpl; auto|].
    symmetry. apply leb_true. apply IZR_le in H. exact H.
  - replace (leb 1 (IZR n)) with false; [reflexivity|].
    symmetry. apply leb_false. apply IZR_le in H. lra.
Qed.

(** X6: set_dimension never rounds up.  Whenever it accepts d, the
    dimension n it stores is an integer with 1 <= n <= d < n + 1, and d
    exceeds n by no more than 1e-8 + 1e-5 * n. *)
Theorem set_dimension_stored (d : pyval) (s : world) :
  fst (set_dimension d s) = Ok tt ->
  exists n,
    _d (self (snd (set_dimension d s))) = Some n /\
    (1 <= n)%Z /\
    IZR n <= num d < IZR n + 1 /\
    num d - IZR n <= 1e-8 + 1e-5 * IZR n.
Proof.
  intros H.
  assert (CD : Np.isclose (num d) (IZR (int (num d))) = true /\ 1 <= num d).
  { rewrite set_dimension_cases in H.
    destruct (is_Real d); [|discriminate]. simpl in H.
    destruct (Np.isclose (num d) (IZR (int (num d)))); [|discriminate].
    simpl in H. destruct (leb 1 (num d)) eqn:E; [|discriminate].
    apply leb_true in E. auto. }
  destruct CD as (C & D).
  rewrite (set_dimension_ok d s H). simpl.
  exists (int (num d)). split; [reflexivity|].
  pose proof (int_ge_1 (num d) D) as N.
  assert (P : 0 <= num d) by lra.
  pose proof (int_nonneg (num d) P) as B.
  split; [exact N|]. split; [exact B|].
  unfold Np.isclose, Np.atol, Np.rtol in C. apply leb_true in C.
  apply IZR_le in N.
  rewrite Rabs_right in C by lra. rewrite Rabs_right in C by lra.
  exact C.
Qed.

(** ** The configuration is kept well formed *)



(** ** The adjusted budget is usable *)




(** ** What a successful randomise leaves behind *)

Lemma randomise_success (value0 : pyobj) (s s' : world) (k : closure) :
  randomise value0 s = (Ok k, s') ->
  exists f e c g d,
    value0 = Fun f /\
    _epsilon (self s) = Some e /\ 0 < e /\
    _function_sensitivity (self s) = Some c /\
    _data_sensitivity (self s) = Some g /\
    _d (self s) = Some d /\
    (Ok k, s') =
    (let G := np_random s in
     let n := Z.to_nat d in
     let v := map (Np.normal_stream G) (seq (Np.cursor G) n) in
     let y := Np.gamma_sample G (IZR d)
                (1 / snd (budget e c g (_alpha (self s)))) (Np.cursor G + n) in
     (Ok {| value := Fun f;
            normed_noisy_vector :=
              Np.Ar (map (fun x => x * y) (map (fun x => x / Np.norm v) v));
            delta := snd (fst (budget e c g (_alpha (self s)))) |},
      {| self := self s;
         np_random := Np.advance 1 (Np.advance n G);
         memory := memory s |})).
Proof.
  intros H.
  destruct (fst (check_inputs value0 s)) as [b0|e'] eqn:C.
  - apply check_inputs_ok in C.
    destruct C as [Hc (e & c & g & d & He & Hpos & Hfs & Hds & Hd)].
    destruct value0 as [f|v]; [|discriminate].
    exists f, e, c, g, d. repeat (split; [assumption || reflexivity|]).
    rewrite <- H. apply (randomise_ready f s e c g d He Hpos Hfs Hds Hd).
  - rewrite (randomise_check_fails value0 s e' C) in H. discriminate.
Qed.

(** X9: a successful randomise changes nothing but the generator: the
    mechanism object and the memory are as before, the generator has
    delivered exactly d + 1 draws (d normal draws and one Gamma draw), the
    closure wraps the function that was passed, and its noise vector has d
    elements. *)
Theorem randomise_frame (value0 : pyobj) (s s' : world) (k : closure) :
  randomise value0 s = (Ok k, s') ->
  exists d b,
    _d (self s) = Some d /\
    self s' = self s /\ memory s' = memory s /\
    Np.cursor (np_random s') = (Np.cursor (np_random s) + Z.to_nat d + 1)%nat /\
    Np.normal_stream (np_random s') = Np.normal_stream (np_random s) /\
    Np.gamma_sample (np_random s') = Np.gamma_sample (np_random s) /\
    value k = value0 /\
    normed_noisy_vector k = Np.Ar b /\ length b = Z.to_nat d.
Proof.
  intros H.
  destruct (randomise_success value0 s s' k H)
    as (f & e & c & g & d & Hv & He & Hpos & Hc & Hg & Hd & E).
  cbv zeta in E. injection E as -> ->. subst value0.
  eexists d, _. simpl. repeat split; try assumption.
  rewrite !length_map, length_seq. reflexivity.
Qed.

(** X10: the mechanism can be used again: after a successful randomise a
    second randomise (on any function) succeeds too, with the same delta
    and with a noise vector built from the draws that follow those of the
    first call; the two calls consume 2 * (d + 1) draws. *)
Theorem randomise_again (value1 : pyobj) (f2 : pyfun) (s s1 : world)
    (k1 : closure) :
  randomise value1 s = (Ok k1, s1) ->
  exists d k2 s2 scale,
    _d (self s) = Some d /\
    randomise (Fun f2) s1 = (Ok k2, s2) /\
    delta k2 = delta k1 /\
    Np.cursor (np_random s2) =
      (Np.cursor (np_random s) + 2 * (Z.to_nat d + 1))%nat /\
    (let G := np_random s in
     let n := Z.to_nat d in
     let noise := fun first =>
       let v := map (Np.normal_stream G) (seq first n) in
       let y := Np.gamma_sample G (IZR d) (1 / scale) (first + n) in
       Np.Ar (map (fun x => x * y) (map (fun x => x / Np.norm v) v)) in
     normed_noisy_vector k1 = noise (Np.cursor G) /\
     normed_noisy_vector k2 = noise (Np.cursor G + n + 1)%nat).
Proof.
  intros H.
  destruct (randomise_success value1 s s1 k1 H)
    as (f & e & c & g & d & Hv & He & Hpos & Hc & Hg & Hd & E).
  cbv zeta in E. injection E as -> ->.
  eexists d, _, _, _. split; [exact Hd|]. split.
  - apply (randomise_ready f2 _ e c g d); simpl; assumption.
  - simpl. split; [reflexivity|]. split; [lia|].
    split; reflexivity.
Qed.

(** ** The magnitude of the noise *)

Lemma sum_squares_times (y : R) (u : list R) :
  Np.sum (map (fun x => x * x) (map (fun x => x * y) u)) =
  y * y * Np.sum (map (fun x => x * x) u).
Proof.
  induction u as [|x u IH]; simpl; [ring|]. rewrite IH. ring.
Qed.

Lemma norm_scaled (y : R) (u : list R) :
  Np.norm (map (fun x => x * y) u) = Rabs y * Np.norm u.
Proof.
  unfold Np.norm. rewrite sum_squares_times.
  rewrite sqrt_mult; [|apply Rle_0_sqr | apply sum_squares_nonneg].
  fold (Rsqr y). rewrite sqrt_Rsqr_abs. reflexivity.
Qed.

(** X11: the 2-norm of the noise vector is the magnitude of the Gamma
    draw: for a mechanism of dimension d whose d normal draws are not all
    zero, the vector captured by the closure has d elements and its norm
    is the absolute value of the one Gamma sample. *)
Theorem noise_magnitude (f : pyfun) (s : world) (e c g : R) (d : Z) :
  _epsilon (self s) = Some e -> 0 < e ->
  _function_sensitivity (self s) = Some c ->
  _data_sensitivity (self s) = Some g ->
  _d (self s) = Some d ->
  let G := np_random s in
  let v := map (Np.normal_stream G) (seq (Np.cursor G) (Z.to_nat d)) in
  let scale := snd (budget e c g (_alpha (self s))) in
  let y := Np.gamma_sample G (IZR d) (1 / scale) (Np.cursor G + Z.to_nat d) in
  Np.norm v <> 0 ->
  exists k s' b,
    randomise (Fun f) s = (Ok k, s') /\
    normed_noisy_vector k = Np.Ar b /\
    length b = Z.to_nat d /\
    Np.norm b = Rabs y.
Proof.
  intros He Hpos Hc Hg Hd G v scale y Hn.
  rewrite (randomise_ready f s e c g d He Hpos Hc Hg Hd). cbv zeta.
  eexists _, _, _. split; [reflexivity|]. split; [reflexivity|]. split.
  - rewrite !length_map, length_seq. reflexivity.
  - rewrite norm_scaled. fold G. fold v. rewrite (normalised_norm v Hn).
    fold scale. fold y. ring.
Qed.

(** ** The closure: failures and unusual results *)

Lemma update_update (h : heap) (l : loc) (u v : list R) :
  update (update h l u) l v = update h l v.
Proof.
  revert l; induction h as [|x h IH]; intros [|l]; simpl; auto.
  rewrite IH. reflexivity.
Qed.

Lemma iadd_array_scalar (l : loc) (h : heap) (u : list R) (y : R) :
  nth_error h l = Some u ->
  Np.iadd (VArray l) (Np.Sc y) h =
  (Ok (VArray l), update h l (map (fun x => x + y) u)).
Proof.
  intros H. unfold Np.iadd, load. run. rewrite H. simpl.
  unfold Np.add, Np.broadcast. simpl.
  rewrite length_map, Nat.eqb_refl. reflexivity.
Qed.

Lemma dot_arrays_mismatch (u v : list R) :
  length u <> length v -> Np.dot (Np.Ar u) (Np.Ar v) = Raise ValueError.
Proof.
  intros H. unfold Np.dot. apply Nat.eqb_neq in H. rewrite H. reflexivity.
Qed.

Lemma bind_fail {S A B} (m : M S A) (k : A -> M S B) (s s' : S) (e : exn) :
  m s = (Raise e, s') -> bind m k s = (Raise e, s').
Proof. intros H. unfold bind. rewrite H. reflexivity. Qed.

(** X12: what makes the closure fail before it perturbs anything.  Called
    with no argument it raises IndexError without calling the wrapped
    function; an exception of the wrapped function comes out unchanged;
    and a tuple result that has not exactly two elements raises
    ValueError.  In each case memory is as the wrapped function left
    it. *)
Theorem output_func_early_failures (k : closure) (f : pyfun) (h : heap) :
  value k = Fun f ->
  output_func k [] h = (Raise IndexError, h) /\
  (forall w rest e h1,
     f (w :: rest) h = (Raise e, h1) ->
     output_func k (w :: rest) h = (Raise e, h1)) /\
  (forall w rest l h1,
     f (w :: rest) h = (Ok (VTuple l), h1) -> length l <> 2%nat ->
     output_func k (w :: rest) h = (Raise ValueError, h1)).
Proof.
  intros Hv. split; [reflexivity|]. split.
  - intros w rest e h1 Hf. unfold output_func.
    step reflexivity.
    apply bind_fail. unfold call_value. rewrite Hv. exact Hf.
  - intros w rest l h1 Hf Hl. unfold output_func.
    step reflexivity.
    step ltac:(unfold call_value; rewrite Hv; exact Hf).
    apply bind_fail. unfold lift, split_result. simpl.
    destruct l as [|x [|y [|z l]]]; try reflexivity.
    exfalso. apply Hl. reflexivity.
Qed.

(** X13: the closure checks the length of w only through numpy.dot: when
    w is an array whose length is not that of the noise vector, the call
    raises ValueError, whether the wrapped function returned a bare value
    or a pair, and nothing has been added to the result: memory is as the
    wrapped function left it. *)
Theorem output_func_wrong_length (k : closure) (f : pyfun) (b : list R)
    (lw : loc) (rest : list pyval) (h h1 : heap) (wv : list R) (r : pyval) :
  value k = Fun f -> normed_noisy_vector k = Np.Ar b ->
  f (VArray lw :: rest) h = (Ok r, h1) ->
  is_tuple r = false \/ (exists x g, r = VTuple [x; g]) ->
  nth_error h1 lw = Some wv -> length wv <> length b ->
  output_func k (VArray lw :: rest) h = (Raise ValueError, h1).
Proof.
  intros Hv Hb Hf Hr Hw Lw. unfold output_func.
  step reflexivity.
  step ltac:(unfold call_value; rewrite Hv; exact Hf).
  assert (S : exists fg, split_result r = Ok fg).
  { destruct Hr as [Hr | (x & g & ->)].
    - exists (r, VNone). unfold split_result. rewrite Hr. reflexivity.
    - exists (x, g). reflexivity. }
  destruct S as ([func grad] & S).
  step ltac:(unfold lift; rewrite S; reflexivity). cbv beta iota.
  step ltac:(apply asarray_array; exact Hw).
  apply bind_fail. unfold lift. rewrite Hb, dot_arrays_mismatch; [reflexivity|].
  congruence.
Qed.

(** X14: a pair whose gradient is None comes back as a bare value: when
    the wrapped function returns the tuple (f, None), the closure returns
    the number f + dot(b, w) + 0.5*delta*dot(w, w), not a pair. *)
Theorem output_func_none_gradient (k : closure) (f : pyfun) (b : list R)
    (lw : loc) (rest : list pyval) (h h1 : heap) (wv : list R) (fv : R) :
  value k = Fun f -> normed_noisy_vector k = Np.Ar b ->
  f (VArray lw :: rest) h = (Ok (VTuple [VNum fv; VNone]), h1) ->
  nth_error h1 lw = Some wv -> length wv = length b ->
  output_func k (VArray lw :: rest) h =
  (Ok (VNum (fv + Np.inner b wv + 0.5 * delta k * Np.inner wv wv)), h1).
Proof.
  intros Hv Hb Hf Hw Lw. unfold output_func.
  step reflexivity.
  step ltac:(unfold call_value; rewrite Hv; exact Hf).
  step reflexivity. simpl.
  step ltac:(apply asarray_array; exact Hw).
  step ltac:(unfold lift; rewrite Hb, dot_arrays by congruence; reflexivity).
  step ltac:(apply iadd_number).
  step ltac:(apply asarray_array; exact Hw).
  step ltac:(unfold lift; rewrite dot_arrays by reflexivity; reflexivity).
  step ltac:(unfold lift; rewrite mul_scalars; reflexivity).
  step ltac:(apply iadd_number).
  reflexivity.
Qed.

(** X15: a bare array result is perturbed in place.  When the wrapped
    function returns an array r, the closure returns that same array
    object, now holding r + dot(b, w) + 0.5*delta*dot(w', w') in every
    element, and no other array changes.  Here w' is w as it is after the
    first addition: w itself unless the result is the argument array w, in
    which case the quadratic term is computed from the already shifted
    w. *)
Theorem output_func_array_result (k : closure) (f : pyfun) (b : list R)
    (lw lr : loc) (rest : list pyval) (h h1 : heap) (wv rv : list R) :
  value k = Fun f -> normed_noisy_vector k = Np.Ar b ->
  f (VArray lw :: rest) h = (Ok (VArray lr), h1) ->
  nth_error h1 lw = Some wv -> length wv = length b ->
  nth_error h1 lr = Some rv ->
  let p := Np.inner b wv in
  let w' := if Nat.eqb lr lw then map (fun x => x + p) wv else wv in
  let q := 0.5 * delta k * Np.inner w' w' in
  output_func k (VArray lw :: rest) h =
  (Ok (VArray lr), update h1 lr (map (fun x => x + q) (map (fun x => x + p) rv))).
Proof.
  intros Hv Hb Hf Hw Lw Hr p w' q.
  rewrite (output_func_bare k f (VArray lw) rest h h1 (VArray lr) Hv Hf eq_refl).
  step ltac:(apply asarray_array; exact Hw).
  step ltac:(unfold lift; rewrite Hb, dot_arrays by congruence; reflexivity).
  step ltac:(apply (iadd_array_scalar lr h1 rv); exact Hr).
  fold p.
  assert (Hw' : nth_error (update h1 lr (map (fun x => x + p) rv)) lw = Some w').
  { subst w'. destruct (Nat.eqb lr lw) eqn:E.
    - apply Nat.eqb_eq in E. subst lr.
      assert (rv = wv) by congruence. subst rv.
      apply (nth_error_update_same h1 lw wv _ Hw).
    - apply Nat.eqb_neq in E. rewrite nth_error_update_other by exact E.
      exact Hw. }
  step ltac:(apply asarray_array; exact Hw').
  step ltac:(unfold lift; rewrite dot_arrays by reflexivity; reflexivity).
  step ltac:(unfold lift; rewrite mul_scalars; reflexivity).
  fold q.
  rewrite (iadd_array_scalar lr _ (map (fun x => x + p) rv) q
             (nth_error_update_same h1 lr rv _ Hr)).
  rewrite update_update. reflexivity.
Qed.

(** ** Configuration by the defaults *)

Lemma set_dimension_integer_ok (n : Z) (s : world) :
  (1 <= n)%Z -> fst (set_dimension (VNum (IZR n)) s) = Ok tt.
Proof.
  intros H. rewrite set_dimension_cases. simpl.
  rewrite int_IZR, isclose_refl. simpl.
  replace (leb 1 (IZR n)) with true; [reflexivity|].
  symmetry. apply leb_true. apply IZR_le in H. exact H.
Qed.

(** X16: the constructor's alpha = 0.01 and the default data sensitivity 1
    are what randomise uses when they are not set: on a mechanism with
    epsilon e > 0 and the constructor's alpha, set_sensitivity(c) on one
    argument followed by set_dimension(n) for an integer n >= 1 and
    randomise succeeds, the closure carries the delta of the budget for
    (e, c, 1, 0.01), and its noise vector has n elements. *)
Theorem default_configuration (e c : R) (n : Z) (f : pyfun) (s : world) :
  _epsilon (self s) = Some e -> 0 < e ->
  _alpha (self s) = _alpha init ->
  0 < c -> (1 <= n)%Z ->
  exists k s' b,
    (set_sensitivity_default (VNum c) ;;;
     set_dimension (VNum (IZR n)) ;;;
     randomise (Fun f)) s = (Ok k, s') /\
    delta k = snd (fst (budget e c 1 0.01)) /\
    normed_noisy_vector k = Np.Ar b /\ length b = Z.to_nat n /\
    memory s' = memory s.
Proof.
  intros He Hpos Ha Hc Hn. unfold set_sensitivity_default.
  rewrite (bind_seq _ _ s _ tt (set_sensitivity_ok c 1 s Hc Rlt_0_1)).
  rewrite (bind_seq _ _ _ _ tt
             (set_dimension_ok _ _ (set_dimension_integer_ok n _ Hn))).
  rewrite (randomise_ready f _ e c 1 n); simpl; try assumption;
    try reflexivity.
  - rewrite Ha. simpl. eexists _, _, _.
    split; [reflexivity|]. split; [reflexivity|]. split; [reflexivity|].
    split; [|reflexivity].
    rewrite !length_map, length_seq. reflexivity.
  - rewrite int_IZR. reflexivity.
Qed.

(** ** The further theorems at the sample states *)

Lemma setters_overwrite_witness :
  (set_alpha (VNum 2) ;;; set_alpha (VNum 3)) fresh = set_alpha (VNum 3) fresh /\
  _data_sensitivity
    (self (snd ((set_sensitivity (VNum 2) (VNum 3) ;;;
                 set_sensitivity_default (VNum 4)) fresh))) = Some 1.
Proof.
  destruct setters_overwrite as (_ & Hd & Ha & _).
  assert (P2 : 0 < 2) by lra. assert (P3 : 0 < 3) by lra.
  assert (P4 : 0 < 4) by lra.
  split.
  - apply (Ha 2 3 fresh P2 P3).
  - apply (Hd 2 3 4 fresh P2 P3 P4).
Defined.

Lemma setters_commute_witness :
  (set_alpha (VNum 2) ;;; set_dimension (VNum 3)) fresh =
  (set_dimension (VNum 3) ;;; set_alpha (VNum 2)) fresh.
Proof.
  assert (P2 : 0 < 2) by lra.
  assert (D : (1 <= 3)%Z) by lia.
  apply (setters_commute 1 1 2 (VNum 3) fresh Rlt_0_1 Rlt_0_1 P2
           (set_dimension_integer_ok 3 fresh D)).
Defined.

Lemma set_dimension_integer_witness :
  _d (self (snd (set_dimension (VNum 3) fresh))) = Some 3%Z /\
  set_dimension (VNum 0) fresh = (Raise ValueError, fresh).
Proof.
  assert (D : (1 <= 3)%Z) by lia. assert (Z0 : (0 <= 0)%Z) by lia.
  split.
  - apply (proj1 (set_dimension_integer 3 fresh) D).
  - apply (proj2 (set_dimension_integer 0 fresh) Z0).
Defined.

Lemma set_dimension_stored_witness :
  exists n,
    _d (self (snd (set_dimension (VNum 3) fresh))) = Some n /\
    (1 <= n)%Z /\ IZR n <= 3 < IZR n + 1 /\ 3 - IZR n <= 1e-8 + 1e-5 * IZR n.
Proof.
  assert (D : (1 <= 3)%Z) by lia.
  apply (set_dimension_stored (VNum 3) fresh
           (set_dimension_integer_ok 3 fresh D)).
Defined.



Lemma randomise_frame_witness :
  exists k s' b,
    randomise (Fun zero_objective) ready = (Ok k, s') /\
    self s' = self ready /\ memory s' = memory ready /\
    Np.cursor (np_random s') = 3%nat /\
    normed_noisy_vector k = Np.Ar b /\ length b = 2%nat.
Proof.
  pose proof (randomise_sample zero_objective) as R.
  destruct (randomise_frame _ _ _ _ R)
    as (d & b & Hd & Hs & Hm & Hc & _ & _ & _ & Hb & Hl).
  injection Hd as <-.
  eexists _, _, b. split; [exact R|].
  split; [exact Hs|]. split; [exact Hm|]. split; [exact Hc|].
  split; [exact Hb | exact Hl].
Defined.

Lemma randomise_again_witness :
  exists k1 s1 k2 s2,
    randomise (Fun zero_objective) ready = (Ok k1, s1) /\
    randomise (Fun list_objective) s1 = (Ok k2, s2) /\
    delta k2 = delta k1 /\
    Np.cursor (np_random s2) = 6%nat.
Proof.
  pose proof (randomise_sample zero_objective) as R.
  destruct (randomise_again _ list_objective _ _ _ R)
    as (d & k2 & s2 & scale & Hd & R2 & Hdl & Hc & _).
  injection Hd as <-.
  eexists _, _, k2, s2. split; [exact R|]. split; [exact R2|].
  split; [exact Hdl | exact Hc].
Defined.

Lemma noise_magnitude_witness :
  exists k s' b,
    randomise (Fun zero_objective) ready = (Ok k, s') /\
    normed_noisy_vector k = Np.Ar b /\
    length b = 2%nat /\ Np.norm b = Rabs 0.5.
Proof.
  assert (N : Np.norm [0.6; -0.8] <> 0) by (rewrite norm_sample; lra).
  apply (noise_magnitude zero_objective ready 1 1 1 2%Z
           eq_refl Rlt_0_1 eq_refl eq_refl eq_refl N).
Defined.

Lemma output_func_early_failures_witness :
  output_func (sample_closure zero_objective) [] [] = (Raise IndexError, []) /\
  output_func (sample_closure identity_objective) [VTuple []] [] =
    (Raise ValueError, []).
Proof.
  destruct (output_func_early_failures (sample_closure zero_objective)
              zero_objective [] eq_refl) as (H1 & _).
  destruct (output_func_early_failures (sample_closure identity_objective)
              identity_objective [] eq_refl) as (_ & _ & H3).
  split; [exact H1|].
  apply (H3 (VTuple []) [] [] [] eq_refl). discriminate.
Defined.

Lemma output_func_wrong_length_witness :
  output_func (sample_closure zero_objective) [VArray 0] [[1; 1; 1]] =
  (Raise ValueError, [[1; 1; 1]; [0; 0]]).
Proof.
  apply (output_func_wrong_length (sample_closure zero_objective)
           zero_objective [0.3; -0.4] 0%nat [] [[1; 1; 1]]
           [[1; 1; 1]; [0; 0]] [1; 1; 1]
           (VTuple [VNum 0; VArray 1]) eq_refl eq_refl eq_refl).
  - right. exists (VNum 0), (VArray 1). reflexivity.
  - reflexivity.
  - discriminate.
Defined.

Lemma output_func_none_gradient_witness :
  output_func (sample_closure none_gradient_objective) [VArray 0] [[1; 1]] =
  (Ok (VNum (0 + Np.inner [0.3; -0.4] [1; 1]
             + 0.5 * 0 * Np.inner [1; 1] [1; 1])), [[1; 1]]).
Proof.
  apply (output_func_none_gradient (sample_closure none_gradient_objective)
           none_gradient_objective [0.3; -0.4] 0%nat [] [[1; 1]] [[1; 1]]
           [1; 1] 0 eq_refl eq_refl eq_refl eq_refl eq_refl).
Defined.

Lemma output_func_array_result_witness :
  fst (output_func (sample_closure identity_objective) [VArray 0] [[1; 1]]) =
  Ok (VArray 0).
Proof.
  rewrite (output_func_array_result (sample_closure identity_objective)
             identity_objective [0.3; -0.4] 0%nat 0%nat [] [[1; 1]] [[1; 1]]
             [1; 1] [1; 1] eq_refl eq_refl eq_refl eq_refl eq_refl eq_refl).
  reflexivity.
Defined.

Lemma default_configuration_witness :
  exists k s' b,
    (set_sensitivity_default (VNum 2) ;;;
     set_dimension (VNum 3) ;;;
     randomise (Fun zero_objective)) ready = (Ok k, s') /\
    delta k = snd (fst (budget 1 2 1 0.01)) /\
    normed_noisy_vector k = Np.Ar b /\ length b = 3%nat /\
    memory s' = memory ready.
Proof.
  assert (P2 : 0 < 2) by lra. assert (D : (1 <= 3)%Z) by lia.
  apply (default_configuration 1 2 3 zero_objective ready
           eq_refl Rlt_0_1 eq_refl P2 D).
Defined.
